(** * scikit-build utilities: module discovery, path normalisation and
      manifest-template parsing

    A shallow embedding of [skbuild/utils/__init__.py] and of the [run] of
    [skbuild/command/install_scripts.py], together with the
    properties its design document states about it.

    Conventions.  A Python [str] is a Rocq [string]; every [ascii] stands
    for one character of the Python string, so [length], slicing and
    [startswith] count the same units as Python does.  [None] is [None] of
    an [option].  Paths follow [posixpath]. *)

From Stdlib Require Import String Ascii List Bool Arith Lia.
From Stdlib Require Import DecimalString.
Import ListNotations.
Local Open Scope string_scope.

(* ------------------------------------------------------------------ *)
(** ** Python string primitives used by the module *)

Module PyStr.

(** [s.replace(old, new)] for a one-character [old]. *)
Fixpoint replace (old : ascii) (new : string) (s : string) : string :=
  match s with
  | EmptyString => EmptyString
  | String c rest =>
      if Ascii.eqb c old then new ++ replace old new rest
      else String c (replace old new rest)
  end.

(** [s.startswith(p)]. *)
Fixpoint startswith (s p : string) {struct p} : bool :=
  match p, s with
  | EmptyString, _ => true
  | String _ _, EmptyString => false
  | String a p', String b s' => Ascii.eqb a b && startswith s' p'
  end.

(** [s[n:]]: a slice that starts past the end is the empty string. *)
Fixpoint slice_from (n : nat) (s : string) : string :=
  match n, s with
  | O, _ => s
  | S _, EmptyString => EmptyString
  | S n', String _ rest => slice_from n' rest
  end.

(** [s[:n]]. *)
Fixpoint slice_to (n : nat) (s : string) : string :=
  match n, s with
  | O, _ => EmptyString
  | S _, EmptyString => EmptyString
  | S n', String c rest => String c (slice_to n' rest)
  end.

(** [s.endswith(c)] for a one-character [c]. *)
Fixpoint endswith (s : string) (c : ascii) : bool :=
  match s with
  | EmptyString => false
  | String a EmptyString => Ascii.eqb a c
  | String _ rest => endswith rest c
  end.

(** [c in s]. *)
Fixpoint contains (s : string) (c : ascii) : bool :=
  match s with
  | EmptyString => false
  | String a rest => Ascii.eqb a c || contains rest c
  end.

(** [s.split(c)] for a one-character separator: never an empty list. *)
Fixpoint split (c : ascii) (s : string) : list string :=
  match s with
  | EmptyString => [EmptyString]
  | String a rest =>
      if Ascii.eqb a c then EmptyString :: split c rest
      else match split c rest with
           | [] => [String a EmptyString]
           | w :: ws => String a w :: ws
           end
  end.

(** [str(n)] for a non-negative integer. *)
Definition of_nat (n : nat) : string := NilEmpty.string_of_uint (Nat.to_uint n).

End PyStr.

Definition slash : ascii := "/"%char.
Definition backslash : ascii := "\"%char.

(* ------------------------------------------------------------------ *)
(** ** Path normalisers *)

Section Normalisers.

(** [os.sep], the separator of the host platform. *)
Variable os_sep : string.

(** [to_platform_path]:
    [path.replace("/", os.sep).replace("\\", os.sep) if path is not None else None] *)
Definition to_platform_path (path : option string) : option string :=
  match path with
  | Some p => Some (PyStr.replace backslash os_sep (PyStr.replace slash os_sep p))
  | None => None
  end.

End Normalisers.

(** [to_unix_path]: [path.replace("\\", "/") if path is not None else None] *)
Definition to_unix_path (path : option string) : option string :=
  match path with
  | Some p => Some (PyStr.replace backslash "/" p)
  | None => None
  end.

(* ------------------------------------------------------------------ *)
(** ** The slice of [posixpath], [glob] and [genericpath] the module calls *)

Module posixpath.

(** [os.path.join(a, b)]: an absolute [b] replaces [a]; a separator is
    inserted only when [a] is non-empty and does not already end in one. *)
Definition join (a b : string) : string :=
  if PyStr.startswith b "/" then b
  else if (a =? "") || PyStr.endswith a slash then a ++ b
  else a ++ "/" ++ b.

(** [os.path.isabs(p)]. *)
Definition isabs (p : string) : bool := PyStr.startswith p "/".

(** [os.path.basename(p)]: what follows the last separator. *)
Fixpoint basename (p : string) : string :=
  match p with
  | EmptyString => EmptyString
  | String c rest =>
      if PyStr.contains rest slash then basename rest
      else if Ascii.eqb c slash then rest else p
  end.

(** [p.rfind(c)], scanning from index [i] with [acc] the last hit so far. *)
Fixpoint rfind_from (c : ascii) (p : string) (i : nat) (acc : option nat) : option nat :=
  match p with
  | EmptyString => acc
  | String a rest => rfind_from c rest (S i) (if Ascii.eqb a c then Some i else acc)
  end.

Definition rfind (c : ascii) (p : string) : option nat := rfind_from c p 0 None.

(** [all(ch == "." for ch in p)]. *)
Fixpoint only_dots (p : string) : bool :=
  match p with
  | EmptyString => true
  | String a rest => Ascii.eqb a "."%char && only_dots rest
  end.

(** [os.path.splitext(p)]: the extension starts at the last dot of the
    last component, unless only dots precede it there. *)
Definition splitext (p : string) : string * string :=
  match rfind "."%char p with
  | None => (p, "")
  | Some dotIndex =>
      let filenameIndex := match rfind slash p with None => 0 | Some i => S i end in
      if Nat.leb filenameIndex dotIndex
         && negb (only_dots (PyStr.slice_to (dotIndex - filenameIndex)
                                            (PyStr.slice_from filenameIndex p)))
      then (PyStr.slice_to dotIndex p, PyStr.slice_from dotIndex p)
      else (p, "")
  end.

(** [glob.escape(p)]: every [*], [?] and [[] is wrapped in brackets. *)
Fixpoint glob_escape (p : string) : string :=
  match p with
  | EmptyString => EmptyString
  | String c rest =>
      if Ascii.eqb c "*"%char || Ascii.eqb c "?"%char || Ascii.eqb c "["%char
      then String "["%char (String c (String "]"%char (glob_escape rest)))
      else String c (glob_escape rest)
  end.

End posixpath.

(* ------------------------------------------------------------------ *)
(** ** The host: filesystem, working directory, log *)

(** A logical line of a [distutils.text_file.TextFile]: the text after
    comment stripping, blank skipping and joining, with the value of
    [current_line] once it has been read (one number, or the first and last
    physical line of a joined line). *)
Inductive line_ref : Type :=
| LineAt (n : nat)
| LinesJoined (first last : nat).

(** What path queries answer from one working directory. *)
Record filesystem : Type := {
  path_exists : string -> bool;            (* os.path.exists *)
  path_isdir : string -> bool;             (* os.path.isdir *)
  path_isfile : string -> bool;            (* os.path.isfile *)
  glob : string -> list string;            (* glob.glob(pattern) *)
  abspath : string -> string;              (* os.path.abspath *)
  chdir_target : string -> option string;  (* os.getcwd() after os.chdir(d); None: OSError *)
  text_lines : string -> option (list (line_ref * string))
                                           (* logical lines of TextFile(path); None: OSError on open *)
}.

Inductive exn : Type :=
| OSError (path : string)
| TypeError
| DistutilsFileError (msg : string)
| DistutilsTemplateError (msg : string)
| ValueError (msg : string).

(** What the process writes: a record of the [skbuild] logger at warning
    level, or a line on standard output. *)
Inductive event : Type :=
| Warned (msg : string)
| Printed (msg : string).

Inductive outcome (A : Type) : Type :=
| Returned (a : A)
| Raised (e : exn).
Arguments Returned {A} a.
Arguments Raised {A} e.

Section Host.

(** States of the disk, how a state answers queries issued from a working
    directory, and [os.makedirs(path, exist_ok=True)] issued from a
    working directory ([None]: [OSError]). *)
Variable Disk : Type.
Variable view : Disk -> string -> filesystem.
Variable os_makedirs : Disk -> string -> string -> option Disk.

Record world : Type := {
  cwd : string;
  disk : Disk;
  logger_connected : bool;   (* false: the logger's handlers raise ValueError *)
  output : list event
}.

(** Computations over the host that return or raise. *)
Definition M (A : Type) : Type := world -> outcome A * world.

Definition ret {A} (a : A) : M A := fun w => (Returned a, w).
Definition raise {A} (e : exn) : M A := fun w => (Raised e, w).
Definition bind {A B} (c : M A) (k : A -> M B) : M B :=
  fun w => match c w with
           | (Returned a, w1) => k a w1
           | (Raised e, w1) => (Raised e, w1)
           end.

Notation "x <- c ;; k" := (bind c (fun x => k))
  (at level 61, c at next level, right associativity).
Notation "c ;;; k" := (bind c (fun _ => k))
  (at level 61, right associativity).

Definition here : M filesystem := fun w => (Returned (view (disk w) (cwd w)), w).
Definition emit (e : event) : M unit :=
  fun w => (Returned tt,
            {| cwd := cwd w; disk := disk w;
               logger_connected := logger_connected w;
               output := output w ++ [e] |}).

Definition os_getcwd : M string := fun w => (Returned (cwd w), w).

Definition os_chdir (d : string) : M unit :=
  fun w => match chdir_target (view (disk w) (cwd w)) d with
           | Some c => (Returned tt,
                        {| cwd := c; disk := disk w;
                           logger_connected := logger_connected w;
                           output := output w |})
           | None => (Raised (OSError d), w)
           end.

Definition makedirs (d : string) : M unit :=
  fun w => match os_makedirs (disk w) (cwd w) d with
           | Some k => (Returned tt,
                        {| cwd := cwd w; disk := k;
                           logger_connected := logger_connected w;
                           output := output w |})
           | None => (Raised (OSError d), w)
           end.

(** [_log_warning(msg, *args)], with [text] for [msg % args]: the logger
    takes the record, and when it raises [ValueError] the text is printed. *)
Definition _log_warning (text : string) : M unit :=
  fun w => if logger_connected w then emit (Warned text) w
           else emit (Printed text) w.

(** [with cm: body]: [__exit__] runs on every way out of [body] once
    [__enter__] has returned, and a falsy result of [__exit__] lets an
    exception of the body through. *)
Definition with_ {CM A} (enter : M CM) (exit : CM -> M unit) (body : M A) : M A :=
  fun w => match enter w with
           | (Raised e, w1) => (Raised e, w1)
           | (Returned cm, w1) =>
               let (r, w2) := body w1 in
               match exit cm w2 with
               | (Returned _, w3) => (r, w3)
               | (Raised e, w3) => (Raised e, w3)
               end
           end.

(* ---------------------------------------------------------------- *)
(** ** [push_dir] *)

Record push_dir : Type := {
  directory : option string;
  make_directory : bool;
  old_cwd : option string
}.

Definition push_dir__init__ (directory : option string) (make_directory : bool) : push_dir :=
  {| directory := directory; make_directory := make_directory; old_cwd := None |}.

Definition push_dir__enter__ (self : push_dir) : M push_dir :=
  c <- os_getcwd ;;
  let self := {| directory := directory self;
                 make_directory := make_directory self;
                 old_cwd := Some c |} in
  match directory self with
  | None | Some EmptyString => ret self
  | Some d =>
      (if make_directory self then makedirs d else ret tt) ;;;
      os_chdir d ;;;
      ret self
  end.

Definition push_dir__exit__ (self : push_dir) : M unit :=
  match old_cwd self with
  | Some c => os_chdir c
  | None => raise TypeError
  end.

(* ---------------------------------------------------------------- *)
(** ** [PythonModuleFinder] *)

(** A module triple [(package, module, module_file)]. *)
Definition entry : Type := string * string * string.

Record PythonModuleFinder : Type := {
  packages : list string;
  package_dir : list (string * string);
  py_modules : list string;
  alternative_build_base : option string;
  script_name : string
}.

Definition PythonModuleFinder__init__ (packages : list string)
    (package_dir : list (string * string)) (py_modules : list string)
    (alternative_build_base : option string) : PythonModuleFinder :=
  {| packages := packages; package_dir := package_dir; py_modules := py_modules;
     alternative_build_base := alternative_build_base; script_name := "setup.py" |}.

(** The inherited [build_py.find_all_modules], whose loops call the
    methods below; any computation over the host. *)
Variable build_py_find_all_modules : PythonModuleFinder -> M (list entry).

(** The inherited [build_py.check_package]: the directory must exist and
    be a directory; a missing [__init__.py] is only warned about. *)
Definition build_py_check_package (package package_dir : string) : M (option string) :=
  fs <- here ;;
  (if negb (package_dir =? "") then
     if negb (path_exists fs package_dir) then
       raise (DistutilsFileError ("package directory '" ++ package_dir ++ "' does not exist"))
     else if negb (path_isdir fs package_dir) then
       raise (DistutilsFileError ("supposed package directory '" ++ package_dir
                                  ++ "' exists, but is not a directory"))
     else ret tt
   else ret tt) ;;;
  if negb (package =? "") then
    let init_py := posixpath.join package_dir "__init__.py" in
    if path_isfile fs init_py then ret (Some init_py)
    else
      emit (Warned ("package init file '" ++ init_py ++ "' not found (or not a regular file)")) ;;;
      ret None
  else ret None.

(** The inherited [build_py.find_package_modules]: every [*.py] of the
    directory except the setup script itself. *)
Definition build_py_find_package_modules (self : PythonModuleFinder)
    (package package_dir : string) : M (list entry) :=
  build_py_check_package package package_dir ;;;
  fs <- here ;;
  let module_files := glob fs (posixpath.join (posixpath.glob_escape package_dir) "*.py") in
  let setup_script := abspath fs (script_name self) in
  ret (flat_map
         (fun f =>
            if negb (abspath fs f =? setup_script)
            then [(package, fst (posixpath.splitext (posixpath.basename f)), f)]
            else [])
         module_files).

(** [with push_dir(project_dir): return super().find_all_modules()] *)
Definition find_all_modules (self : PythonModuleFinder) (project_dir : option string)
  : M (list entry) :=
  with_ (push_dir__enter__ (push_dir__init__ project_dir false))
        push_dir__exit__
        (build_py_find_all_modules self).

(** The nested [_strip_directory(entry)]. *)
Definition _strip_directory (self : PythonModuleFinder) (e : entry) : entry :=
  let '(package, module, module_file) := e in
  let module_file :=
    match alternative_build_base self with
    | Some base =>
        if PyStr.startswith module_file base
        then PyStr.slice_from (String.length base + 1) module_file
        else module_file
    | None => module_file
    end in
  (package, module, module_file).

Definition find_package_modules (self : PythonModuleFinder)
    (package package_dir : string) : M (list entry) :=
  fs <- here ;;
  let package_dir :=
    if negb (package_dir =? "") && negb (path_exists fs package_dir)
    then match alternative_build_base self with
         | Some base => posixpath.join base package_dir
         | None => package_dir
         end
    else package_dir in
  modules <- build_py_find_package_modules self package package_dir ;;
  ret (map (_strip_directory self) modules).

Definition check_module (self : PythonModuleFinder) (module module_file : string) : M bool :=
  fs <- here ;;
  let module_file :=
    match alternative_build_base self with
    | Some base =>
        let updated_module_file := posixpath.join base module_file in
        if path_exists fs updated_module_file then updated_module_file else module_file
    | None => module_file
    end in
  if negb (path_isfile fs module_file) then
    _log_warning ("file " ++ module_file ++ " (for module " ++ module ++ ") not found") ;;;
    ret false
  else ret true.

(* ---------------------------------------------------------------- *)
(** ** [parse_manifestin] *)

(** [distutils.filelist.FileList.process_template_line] first parses the
    line ([_parse_template_line], which raises [DistutilsTemplateError]
    on a malformed directive and lets the [ValueError] of [convert_path]
    through) and then applies the directive to the list of files. *)
Variable directive : Type.
Variable _parse_template_line : string -> outcome directive.
Variable apply_directive : filesystem -> directive -> list string -> list string.

Definition process_template_line (files : list string) (line : string)
  : M (list string) :=
  fs <- here ;;
  match _parse_template_line line with
  | Returned d => ret (apply_directive fs d files)
  | Raised e => raise e
  end.

(** [f"{template.current_line}"]: a number, or the list of two numbers
    of a joined line. *)
Definition show_line_ref (r : line_ref) : string :=
  match r with
  | LineAt n => PyStr.of_nat n
  | LinesJoined a b => "[" ++ PyStr.of_nat a ++ ", " ++ PyStr.of_nat b ++ "]"
  end.

(** The [while True] loop: [lines] is what [template.readline()] still has
    to return, [files] is [file_list.files]. *)
Fixpoint read_template (filename : string) (lines : list (line_ref * string))
    (files : list string) : M (list string) :=
  match lines with
  | [] => ret files
  | (current_line, line) :: rest =>
      fun w =>
        match process_template_line files line w with
        | (Returned files', w1) => read_template filename rest files' w1
        | (Raised (DistutilsTemplateError msg), w1)
        | (Raised (ValueError msg), w1) =>
            (emit (Printed (filename ++ ", line " ++ show_line_ref current_line
                            ++ ": " ++ msg)) ;;;
             read_template filename rest files) w1
        | (Raised e, w1) => (Raised e, w1)
        end
  end.

Definition parse_manifestin (template : string) : M (list string) :=
  fs <- here ;;
  if negb (path_exists fs template) then ret []
  else
    match text_lines fs template with
    | None => raise (OSError template)
    | Some lines => read_template template lines []
    end.

End Host.

Arguments cwd {Disk} w.
Arguments disk {Disk} w.
Arguments logger_connected {Disk} w.
Arguments output {Disk} w.
Arguments ret {Disk A} a w.
Arguments raise {Disk A} e w.
Arguments bind {Disk A B} c k w.
Arguments emit {Disk} e w.
Arguments with_ {Disk CM A} enter exit body w.
Arguments here {Disk} view w.
Arguments os_chdir {Disk} view d w.
Arguments _log_warning {Disk} text w.
Arguments push_dir__enter__ {Disk} view os_makedirs self w.
Arguments push_dir__exit__ {Disk} view self w.
Arguments build_py_check_package {Disk} view package package_dir w.
Arguments build_py_find_package_modules {Disk} view self package package_dir w.
Arguments find_all_modules {Disk} view os_makedirs build_py_find_all_modules self project_dir w.
Arguments find_package_modules {Disk} view self package package_dir w.
Arguments check_module {Disk} view self module module_file w.
Arguments process_template_line {Disk} view {directive} _parse_template_line apply_directive files line w.
Arguments read_template {Disk} view {directive} _parse_template_line apply_directive filename lines files w.
Arguments parse_manifestin {Disk} view {directive} _parse_template_line apply_directive template w.

(** The inherited enumeration followed by the stripping of every entry:
    what [find_package_modules] does once it has settled on a directory. *)
Definition enumerate_and_strip {Disk} (view : Disk -> string -> filesystem)
    (self : PythonModuleFinder) (package searched : string) : M Disk (list entry) :=
  bind (build_py_find_package_modules view self package searched)
       (fun modules => ret (map (_strip_directory self) modules)).

(** The world after [events] have been written. *)
Definition wrote {Disk} (w : world Disk) (events : list event) : world Disk :=
  {| cwd := cwd w; disk := disk w;
     logger_connected := logger_connected w;
     output := output w ++ events |}.

(** The text [check_module] hands to [_log_warning]. *)
Definition not_found_text (module_file module : string) : string :=
  "file " ++ module_file ++ " (for module " ++ module ++ ") not found".

(* ------------------------------------------------------------------ *)
(** ** Reading a manifest template line by line *)

Section TemplateLines.

Context {directive : Type} (_parse_template_line : string -> outcome directive).

(** The exceptions the loop of [parse_manifestin] catches. *)
Definition caught (e : exn) : option string :=
  match e with
  | DistutilsTemplateError msg | ValueError msg => Some msg
  | _ => None
  end.

(** A line is malformed when parsing it raises one of those. *)
Definition malformed (line : string) : option string :=
  match _parse_template_line line with
  | Returned _ => None
  | Raised e => caught e
  end.

(** Lines that parse, or fail in one of the two ways the loop catches. *)
Definition parses_or_malformed (line : string) : Prop :=
  match _parse_template_line line with
  | Returned _ => True
  | Raised e => caught e <> None
  end.

(** The directives of the lines that parse, in file order. *)
Definition valid_directives (lines : list (line_ref * string)) : list directive :=
  flat_map (fun l => match _parse_template_line (snd l) with
                     | Returned d => [d]
                     | Raised _ => []
                     end) lines.

End TemplateLines.

(** The line printed for a malformed template line. *)
Definition report (filename : string) (current_line : line_ref) (msg : string) : event :=
  Printed (filename ++ ", line " ++ show_line_ref current_line ++ ": " ++ msg).

(** The reports of the malformed lines, in file order. *)
Definition reports {directive : Type} (_parse_template_line : string -> outcome directive)
    (filename : string) (lines : list (line_ref * string)) : list event :=
  flat_map (fun l => match malformed _parse_template_line (snd l) with
                     | Some msg => [report filename (fst l) msg]
                     | None => []
                     end) lines.

(* ------------------------------------------------------------------ *)
(** ** The existence check as the design document words it *)

Module Specified.

(** Section 4.4, [file_exists]: the path is checked under the Primary
    Root, and only when it is absent there and a Secondary Root is
    configured is it checked again under the Secondary Root. *)
Definition file_exists (fs : filesystem) (secondary_root : option string)
    (file_path : string) : bool :=
  if path_isfile fs file_path then true
  else match secondary_root with
       | Some root => path_isfile fs (posixpath.join root file_path)
       | None => false
       end.

End Specified.

(* ------------------------------------------------------------------ *)
(** ** Small projects on which the definitions are run *)

Module Fixture.

Definition mem (p : string) (l : list string) : bool := existsb (String.eqb p) l.

Fixpoint lookup {A} (k : string) (table : list (string * A)) : option A :=
  match table with
  | [] => None
  | (k', v) :: rest => if k =? k' then Some v else lookup k rest
  end.

(** A project tree as seen from its root [/proj]. *)
Record tree : Type := {
  dirs : list string;
  files : list string;
  globs : list (string * list string);
  templates : list (string * list (line_ref * string))
}.

Definition fs_of (t : tree) : filesystem :=
  {| path_exists := fun p => mem p (dirs t) || mem p (files t);
     path_isdir := fun p => mem p (dirs t);
     path_isfile := fun p => mem p (files t);
     glob := fun pattern => match lookup pattern (globs t) with
                            | Some l => l
                            | None => []
                            end;
     abspath := fun p => posixpath.join "/proj" p;
     chdir_target := fun d => if mem d (dirs t) then Some d else None;
     text_lines := fun p => lookup p (templates t) |}.

(** The disk never changes and answers alike from every directory. *)
Definition view (t : tree) : unit -> string -> filesystem := fun _ _ => fs_of t.
Definition os_makedirs : unit -> string -> string -> option unit := fun _ _ _ => Some tt.

Definition start : world unit :=
  {| cwd := "/proj"; disk := tt; logger_connected := true; output := [] |}.

(** A package that exists only under the install tree [build/]. *)
Definition installed_only : tree :=
  {| dirs := ["/proj"; "build"; "build/pkg"; "build/xbuild"; "build/xbuild/pkg"];
     files := ["build/pkg/m.py"; "build/xbuild/pkg/m.py"];
     globs := [("build/pkg/*.py", ["build/pkg/m.py"]);
               ("build/xbuild/pkg/*.py", ["build/xbuild/pkg/m.py"])];
     templates := [] |}.

(** A source package whose directory name merely begins like the
    install tree's. *)
Definition lookalike : tree :=
  {| dirs := ["/proj"; "cmake-install"; "cmake-installer"];
     files := ["cmake-installer/x.py"];
     globs := [("cmake-installer/*.py", ["cmake-installer/x.py"])];
     templates := [] |}.

(** A module file of the source tree, shadowed by a directory of the
    same name in the install tree. *)
Definition shadowed : tree :=
  {| dirs := ["/proj"; "pkg"; "build"; "build/pkg"; "build/pkg/m.py"];
     files := ["pkg/m.py"];
     globs := [];
     templates := [] |}.

(** A source tree with a sub-project and a manifest template whose
    second line is not a directive. *)
Definition with_manifest : tree :=
  {| dirs := ["/proj"; "/proj/sub"];
     files := ["MANIFEST.in"; "a.txt"; "b.txt"];
     globs := [];
     templates := [("MANIFEST.in",
                    [(LineAt 1, "include a.txt");
                     (LineAt 2, "frobnicate");
                     (LinesJoined 3 4, "include b.txt")])] |}.

(** A two-directive template language, enough to run the parser. *)
Inductive toy_directive : Type :=
| Include (path : string)
| Exclude (path : string).

Definition toy_parse (line : string) : outcome toy_directive :=
  if PyStr.startswith line "include " then Returned (Include (PyStr.slice_from 8 line))
  else if PyStr.startswith line "exclude " then Returned (Exclude (PyStr.slice_from 8 line))
  else Raised (DistutilsTemplateError ("unknown action '" ++ line ++ "'")).

Definition toy_apply (fs : filesystem) (d : toy_directive) (acc : list string) : list string :=
  match d with
  | Include p => if path_isfile fs p then acc ++ [p] else acc
  | Exclude p => filter (fun q => negb (q =? p)) acc
  end.

Definition finder (base : option string) : PythonModuleFinder :=
  PythonModuleFinder__init__ ["pkg"] [] [] base.

End Fixture.

(* ------------------------------------------------------------------ *)
(** ** The package-prefix stripper *)

Module setuptools_wrap.

(** The segments of a path, with both separators accepted. *)
Definition segments (module_file : string) : list string :=
  PyStr.split slash (PyStr.replace backslash "/" module_file).

(** The segments left once the components have been matched one by one
    from the left; [None] when a component differs or the path ends. *)
Fixpoint strip_leading (package_parts segs : list string) : option (list string) :=
  match package_parts, segs with
  | [], rest => Some rest
  | _ :: _, [] => None
  | part :: parts, seg :: segs' =>
      if part =? seg then strip_leading parts segs' else None
  end.

(** Modelled from the spec: [strip_package] of [skbuild/setuptools_wrap.py],
    which is not among the sources; only its test table
    ([tests/test_setup.py], [test_strip_package]) is.  Design document,
    section 4.2: the leading path segments matching the package
    components are removed when they form a contiguous leading run of the
    path's segments, otherwise the path is returned unchanged; an empty
    component list and an absolute path never strip; both separators
    delimit segments and the output uses the forward slash; when every
    segment is matched the result is the empty string. *)
Definition strip_package (package_parts : list string) (module_file : string) : string :=
  match package_parts with
  | [] => module_file
  | _ :: _ =>
      if posixpath.isabs module_file then module_file
      else match strip_leading package_parts (segments module_file) with
           | Some rest => String.concat "/" rest
           | None => module_file
           end
  end.

End setuptools_wrap.

(* ------------------------------------------------------------------ *)
(** ** Listing verbosity: [distribution_hide_listing] and the
       [install_scripts] command *)

Module Listing.

(** [logging.INFO], [logging.WARNING], and the [INFO] and [WARN] of the
    classic [distutils.log]. *)
Definition logging_INFO : nat := 20.
Definition logging_WARNING : nat := 30.
Definition log_INFO : nat := 2.
Definition log_WARN : nat := 3.

(** The value of [sys.stdout]. *)
Inductive stream : Type :=
| Terminal
| DevNull.

(** What reaches the user: a record the [skbuild] logger passed on, or a
    line written to the terminal. *)
Inductive shown : Type :=
| Logged (level : nat) (msg : string)
| Line (msg : string).

Record console : Type := {
  level : nat;            (* level of the logger "skbuild"; 0 is NOTSET *)
  root_level : nat;       (* level of its parent, the root logger *)
  threshold : nat;        (* distutils.log._global_log.threshold *)
  stdout : stream;
  devnull_opens : bool;   (* open(os.devnull, "w") succeeds *)
  screen : list shown
}.

Definition L (A : Type) : Type := console -> outcome A * console.

Definition ret {A} (a : A) : L A := fun s => (Returned a, s).
Definition raise {A} (e : exn) : L A := fun s => (Raised e, s).
Definition bind {A B} (c : L A) (k : A -> L B) : L B :=
  fun s => match c s with
           | (Returned a, s1) => k a s1
           | (Raised e, s1) => (Raised e, s1)
           end.

Notation "x <- c ;; k" := (bind c (fun x => k))
  (at level 61, c at next level, right associativity).
Notation "c ;;; k" := (bind c (fun _ => k))
  (at level 61, right associativity).

(** [try: c finally: fin]. *)
Definition try_finally {A} (c : L A) (fin : L unit) : L A :=
  fun s => let (r, s1) := c s in
           match fin s1 with
           | (Returned _, s2) => (r, s2)
           | (Raised e, s2) => (Raised e, s2)
           end.

Definition show (x : shown) : L unit :=
  fun s => (Returned tt,
            {| level := level s; root_level := root_level s;
               threshold := threshold s; stdout := stdout s;
               devnull_opens := devnull_opens s;
               screen := screen s ++ [x] |}).

(** [Logger.getEffectiveLevel()]: the logger's level, or its parent's when
    its own is NOTSET. *)
Definition effective_level (s : console) : nat :=
  if Nat.eqb (level s) 0 then root_level s else level s.

Definition getEffectiveLevel : L nat := fun s => (Returned (effective_level s), s).

(** [Logger.setLevel(l)]. *)
Definition setLevel (l : nat) : L unit :=
  fun s => (Returned tt,
            {| level := l; root_level := root_level s;
               threshold := threshold s; stdout := stdout s;
               devnull_opens := devnull_opens s; screen := screen s |}).

(** [Logger.log(lvl, msg)]: passed on when [lvl >= getEffectiveLevel()]. *)
Definition logger_log (lvl : nat) (msg : string) : L unit :=
  fun s => if Nat.leb (effective_level s) lvl then show (Logged lvl msg) s
           else (Returned tt, s).

(** [print(msg)]: written to whatever [sys.stdout] is. *)
Definition print (msg : string) : L unit :=
  fun s => match stdout s with
           | Terminal => show (Line msg) s
           | DevNull => (Returned tt, s)
           end.

Definition get_threshold : L nat := fun s => (Returned (threshold s), s).

(** [distutils.log.set_threshold(t)]. *)
Definition set_threshold (t : nat) : L unit :=
  fun s => (Returned tt,
            {| level := level s; root_level := root_level s;
               threshold := t; stdout := stdout s;
               devnull_opens := devnull_opens s; screen := screen s |}).

(** [distutils.log.info(msg)] of the classic module: written to
    [sys.stdout] when [INFO >= threshold]. *)
Definition classic_info (msg : string) : L unit :=
  fun s => if Nat.leb (threshold s) log_INFO then print msg s
           else (Returned tt, s).

(** [with contextlib.redirect_stdout(target): body]. *)
Definition redirect_stdout {A} (target : stream) (body : L A) : L A :=
  fun s =>
    let old_target := stdout s in
    let (r, s1) := body {| level := level s; root_level := root_level s;
                           threshold := threshold s; stdout := target;
                           devnull_opens := devnull_opens s; screen := screen s |} in
    (r, {| level := level s1; root_level := root_level s1;
           threshold := threshold s1; stdout := old_target;
           devnull_opens := devnull_opens s1; screen := screen s1 |}).

(** [with open(os.devnull, "w") as f: body(f)]. *)
Definition open_devnull {A} (body : stream -> L A) : L A :=
  fun s => if devnull_opens s then body DevNull s
           else (Raised (OSError "/dev/null"), s).

(** The part of a distribution the module looks at: the attribute
    [hide_listing], [None] when the object has none. *)
Record Distribution : Type := {
  hide_listing : option bool
}.

Section Verbosity.

(** [logging_module]: whether [setuptools.logging] could be imported, so
    that [distutils_log] is the logger [skbuild] and not the classic
    [distutils.log]. *)
Variable logging_module : bool.

(** [distutils_log.info(msg)]. *)
Definition distutils_log_info (msg : string) : L unit :=
  if logging_module then logger_log logging_INFO msg else classic_info msg.

(** [with distribution_hide_listing(distribution) as h: body(h)]: the
    generator runs up to its [yield], the body runs with the value
    yielded, and the generator is resumed (or the body's exception is
    thrown into it) at the [yield]. *)
Definition distribution_hide_listing {A} (distribution : Distribution)
    (body : bool -> L A) : L A :=
  let hide_listing := match hide_listing distribution with
                      | Some v => v
                      | None => false
                      end in
  if logging_module then
    old_level <- getEffectiveLevel ;;
    (if hide_listing then setLevel logging_WARNING else ret tt) ;;;
    try_finally
      (if hide_listing
       then open_devnull (fun f => redirect_stdout f (body hide_listing))
       else body hide_listing)
      (setLevel old_level)
  else
    old_threshold <- get_threshold ;;
    (if hide_listing then set_threshold log_WARN else ret tt) ;;;
    try_finally (body hide_listing) (set_threshold old_threshold).

(** [install_scripts.run]: the inherited [run], which leaves the files it
    copied in [self.outfiles], inside the manager, then the count. *)
Definition install_scripts_run (distribution : Distribution)
    (inherited_run : L (list string)) : L unit :=
  outfiles <- distribution_hide_listing distribution (fun _ => inherited_run) ;;
  distutils_log_info ("copied " ++ PyStr.of_nat (List.length outfiles) ++ " files").

End Verbosity.

(** What a block may say: records at info and warning level, printed
    lines. *)
Inductive remark : Type :=
| Info (msg : string)
| Warning (msg : string)
| Print (msg : string).

Definition say (r : remark) : L unit :=
  match r with
  | Info msg => logger_log logging_INFO msg
  | Warning msg => logger_log logging_WARNING msg
  | Print msg => print msg
  end.

Fixpoint say_all (rs : list remark) : L unit :=
  match rs with
  | [] => ret tt
  | r :: rest => say r ;;; say_all rest
  end.

(** The warnings among the remarks, as the logger passes them on. *)
Definition warnings_of (rs : list remark) : list shown :=
  flat_map (fun r => match r with
                     | Warning msg => [Logged logging_WARNING msg]
                     | _ => []
                     end) rs.

(** A console at the defaults of a build: [skbuild] at INFO, the root
    logger at WARNING, the terminal as standard output. *)
Definition fresh : console :=
  {| level := 20; root_level := 30; threshold := 2; stdout := Terminal;
     devnull_opens := true; screen := [] |}.

(** The console a block sees under hide-listing: the logger at WARNING,
    standard output sent to the null device. *)
Definition hidden (s : console) : console :=
  {| level := logging_WARNING; root_level := root_level s;
     threshold := threshold s; stdout := DevNull;
     devnull_opens := devnull_opens s; screen := screen s |}.

(** The console [s1] with the logger set to the level that was in effect
    in [s]. *)
Definition releveled (s s1 : console) : console :=
  {| level := effective_level s; root_level := root_level s1;
     threshold := threshold s1; stdout := stdout s1;
     devnull_opens := devnull_opens s1; screen := screen s1 |}.

(** The same, with standard output put back to what it was in [s]. *)
Definition unhidden (s s1 : console) : console :=
  {| level := effective_level s; root_level := root_level s1;
     threshold := threshold s1; stdout := stdout s;
     devnull_opens := devnull_opens s1; screen := screen s1 |}.

(** The console [s] after [xs] have been shown. *)
Definition showing (s : console) (xs : list shown) : console :=
  {| level := level s; root_level := root_level s;
     threshold := threshold s; stdout := stdout s;
     devnull_opens := devnull_opens s; screen := screen s ++ xs |}.

(** The line [install_scripts.run] logs. *)
Definition copied (outfiles : list string) : string :=
  "copied " ++ PyStr.of_nat (List.length outfiles) ++ " files".

(** A distribution built with [--hide-listing], and one without the
    attribute. *)
Definition hiding : Distribution := {| hide_listing := Some true |}.
Definition plain : Distribution := {| hide_listing := None |}.

End Listing.

(* ------------------------------------------------------------------ *)
(** ** A template with a directive that fails on the disk *)

Module Unreadable.

(** As [Fixture.toy_parse], with a [graft] directive whose directory
    cannot be listed. *)
Definition parse (line : string) : outcome Fixture.toy_directive :=
  if PyStr.startswith line "graft " then Raised (OSError (PyStr.slice_from 6 line))
  else Fixture.toy_parse line.

Definition project : Fixture.tree :=
  {| Fixture.dirs := ["/proj"];
     Fixture.files := ["MANIFEST.in"; "a.txt"];
     Fixture.globs := [];
     Fixture.templates := [("MANIFEST.in",
                            [(LineAt 1, "frobnicate");
                             (LineAt 2, "graft docs");
                             (LineAt 3, "include a.txt")])] |}.

End Unreadable.

(* ------------------------------------------------------------------ *)
(** ** Hosts and uses of the utilities *)

(** The two values [os.sep] takes. *)
Definition is_os_sep (sep : string) : Prop := sep = "/" \/ sep = "\".

(** A world that differs from [w] in its working directory only. *)
Definition moved {Disk} (w : world Disk) (c : string) : world Disk :=
  {| cwd := c; disk := disk w;
     logger_connected := logger_connected w; output := output w |}.

Section SharedPushDir.

Context {Disk : Type} (view : Disk -> string -> filesystem)
        (os_makedirs : Disk -> string -> string -> option Disk).

(** [with p: with p: body] on one [push_dir] object [p]: the inner
    [__enter__] assigns [old_cwd] of the same object before it changes
    directory, so the outer [__exit__] reads what the inner one stored. *)
Definition with_same_push_dir_twice {A} (p : push_dir) (body : M Disk A) : M Disk A :=
  fun w =>
    match push_dir__enter__ view os_makedirs p w with
    | (Raised e, w1) => (Raised e, w1)
    | (Returned p1, w1) =>
        let shared := {| directory := directory p1;
                         make_directory := make_directory p1;
                         old_cwd := Some (cwd w1) |} in
        let (r, w2) := with_ (push_dir__enter__ view os_makedirs p1)
                             (push_dir__exit__ view) body w1 in
        match push_dir__exit__ view shared w2 with
        | (Returned _, w3) => (r, w3)
        | (Raised e, w3) => (Raised e, w3)
        end
    end.

End SharedPushDir.

(* ------------------------------------------------------------------ *)
(** ** Facts about the string primitives *)

Lemma append_assoc (a b c : string) : (a ++ b) ++ c = a ++ (b ++ c).
Proof. induction a as [|x a IH]; simpl; [reflexivity | now rewrite IH]. Qed.

Lemma append_nil_r (a : string) : a ++ "" = a.
Proof. induction a as [|x a IH]; simpl; [reflexivity | now rewrite IH]. Qed.

Lemma replace_app old new a b :
  PyStr.replace old new (a ++ b) = PyStr.replace old new a ++ PyStr.replace old new b.
Proof.
  induction a as [|c a IH]; simpl; [reflexivity|].
  rewrite IH. destruct (Ascii.eqb c old); simpl.
  - now rewrite append_assoc.
  - reflexivity.
Qed.

Lemma replace_absent old new s :
  PyStr.contains s old = false -> PyStr.replace old new s = s.
Proof.
  induction s as [|c s IH]; simpl; [reflexivity|].
  intros H. apply orb_false_iff in H as [Hc Hs].
  rewrite Hc. now rewrite IH.
Qed.

Lemma replace_idempotent old new s :
  PyStr.contains new old = false ->
  PyStr.replace old new (PyStr.replace old new s) = PyStr.replace old new s.
Proof.
  intros Hnew. induction s as [|c s IH]; simpl; [reflexivity|].
  destruct (Ascii.eqb c old) eqn:E.
  - rewrite replace_app, IH. now rewrite (replace_absent old new new Hnew).
  - simpl. now rewrite E, IH.
Qed.

(** C8. Both normalisers are functions of their argument alone; they map
    [None] to [None], and every string to a string. *)
Theorem normalisers_propagate_none :
  forall os_sep : string,
    to_platform_path os_sep None = None /\
    to_unix_path None = None /\
    (forall x : string, exists y : string, to_platform_path os_sep (Some x) = Some y) /\
    (forall x : string, exists y : string, to_unix_path (Some x) = Some y).
Proof.
  intros os_sep. repeat split.
  - intros x. eexists. reflexivity.
  - intros x. eexists. reflexivity.
Qed.

(** C9. Unix-separator normalisation is idempotent on every string. *)
Theorem to_unix_path_idempotent :
  forall x : string,
    match to_unix_path (Some x) with
    | Some y => to_unix_path (Some y) = to_unix_path (Some x)
    | None => False
    end.
Proof.
  intros x. unfold to_unix_path. f_equal.
  apply replace_idempotent. reflexivity.
Qed.

(* ------------------------------------------------------------------ *)
(** ** Module discovery *)

Section Discovery.

Context {Disk : Type} (view : Disk -> string -> filesystem).

(** A declared directory that is empty or exists is enumerated as it is. *)
Lemma find_package_modules_as_declared :
  forall (self : PythonModuleFinder) (package d : string) (w : world Disk),
    d = "" \/ path_exists (view (disk w) (cwd w)) d = true ->
    find_package_modules view self package d w
    = enumerate_and_strip view self package d w.
Proof.
  intros self package d w. unfold find_package_modules, enumerate_and_strip.
  intros [-> | Hex]; unfold bind at 1, here; simpl; [reflexivity|].
  rewrite Hex. now rewrite andb_false_r.
Qed.

(** A declared directory that is absent is looked for behind the
    Secondary Root. *)
Lemma find_package_modules_overlaid :
  forall (self : PythonModuleFinder) (package d base : string) (w : world Disk),
    d <> "" -> path_exists (view (disk w) (cwd w)) d = false ->
    alternative_build_base self = Some base ->
    find_package_modules view self package d w
    = enumerate_and_strip view self package (posixpath.join base d) w.
Proof.
  intros self package d base w Hd Hex Hbase.
  unfold find_package_modules, enumerate_and_strip.
  unfold bind at 1, here; simpl.
  rewrite Hex, Hbase.
  destruct (d =? "") eqn:E; [apply String.eqb_eq in E; contradiction|].
  reflexivity.
Qed.

(** C3. A declared directory that is empty or exists under the Primary
    Root is enumerated as it is; otherwise, with a Secondary Root
    configured, the directory enumerated is the Secondary Root joined
    with the declared one. *)
Theorem find_package_modules_directory :
  forall (self : PythonModuleFinder) (package d : string) (w : world Disk),
    ((d = "" \/ path_exists (view (disk w) (cwd w)) d = true) ->
     find_package_modules view self package d w
     = enumerate_and_strip view self package d w)
    /\
    (forall base : string,
        d <> "" -> path_exists (view (disk w) (cwd w)) d = false ->
        alternative_build_base self = Some base ->
        find_package_modules view self package d w
        = enumerate_and_strip view self package (posixpath.join base d) w).
Proof.
  intros self package d w. split.
  - apply find_package_modules_as_declared.
  - intros base. apply find_package_modules_overlaid.
Qed.

(** *** Slices and prefixes *)

Lemma startswith_app (s a b : string) :
  PyStr.startswith s (a ++ b) = true -> exists r, s = a ++ b ++ r.
Proof.
  revert s. induction a as [|c a IH]; simpl.
  - induction b as [|c b IHb]; intros s; simpl.
    + intros _. now exists s.
    + destruct s as [|x s]; [discriminate|].
      intros H. apply andb_true_iff in H as [Hc Hs].
      apply Ascii.eqb_eq in Hc. subst x.
      destruct (IHb s Hs) as [r ->]. now exists r.
  - intros [|x s]; [discriminate|].
    intros H. apply andb_true_iff in H as [Hc Hs].
    apply Ascii.eqb_eq in Hc. subst x.
    destruct (IH s Hs) as [r ->]. now exists r.
Qed.

Lemma startswith_own_prefix (a r : string) : PyStr.startswith (a ++ r) a = true.
Proof.
  induction a as [|c a IH]; simpl; [reflexivity|].
  now rewrite Ascii.eqb_refl, IH.
Qed.

Lemma slice_from_app (a r : string) : PyStr.slice_from (String.length a) (a ++ r) = r.
Proof. induction a as [|c a IH]; simpl; [reflexivity | exact IH]. Qed.

Lemma slice_from_app_sep (a r : string) (c : ascii) :
  PyStr.slice_from (String.length a + 1) (a ++ String c r) = r.
Proof. induction a as [|x a IH]; simpl; [reflexivity | exact IH]. Qed.

Lemma slice_from_length (n : nat) (s : string) :
  n <= String.length s -> String.length (PyStr.slice_from n s) + n = String.length s.
Proof.
  revert s. induction n as [|n IH]; intros s Hn; simpl.
  - lia.
  - destruct s as [|c s]; simpl in *; [lia|].
    specialize (IH s). lia.
Qed.

Lemma slice_from_past_end (n : nat) (s : string) :
  String.length s <= n -> PyStr.slice_from n s = "".
Proof.
  revert s. induction n as [|n IH]; intros s Hn.
  - destruct s; simpl in *; [reflexivity | lia].
  - destruct s as [|c s]; simpl in *; [reflexivity|]. apply IH. lia.
Qed.

(** What [find_package_modules] returns is the inherited enumeration of
    some directory, stripped entry by entry. *)
Lemma find_package_modules_returns :
  forall (self : PythonModuleFinder) (package d : string) (w w1 : world Disk)
         (out : list entry),
    find_package_modules view self package d w = (Returned out, w1) ->
    exists searched modules,
      build_py_find_package_modules view self package searched w = (Returned modules, w1)
      /\ out = map (_strip_directory self) modules.
Proof.
  intros self package d w w1 out. unfold find_package_modules.
  unfold bind at 1, here. simpl.
  match goal with
  | |- context [build_py_find_package_modules view self package ?dir] =>
      set (searched := dir)
  end.
  unfold bind, ret.
  destruct (build_py_find_package_modules view self package searched w)
    as [[modules | e] w2] eqn:E; intros H; inversion H; subst.
  exists searched, modules. split; [exact E | reflexivity].
Qed.

(** C10. With a Secondary Root configured, an entry whose file path
    begins, character by character, with the Secondary Root string loses
    its first [len(alternative_build_base) + 1] characters, whether or
    not the match ends at a segment boundary; and every entry
    [find_package_modules] returns has gone through that stripping. *)
Theorem strip_is_raw_character_prefix :
  forall (self : PythonModuleFinder) (base : string),
    alternative_build_base self = Some base ->
    (forall package module f : string,
        PyStr.startswith f base = true ->
        _strip_directory self (package, module, f)
        = (package, module, PyStr.slice_from (String.length base + 1) f)
        /\ (String.length base < String.length f ->
            String.length (PyStr.slice_from (String.length base + 1) f)
            + (String.length base + 1) = String.length f)
        /\ (String.length f <= String.length base ->
            PyStr.slice_from (String.length base + 1) f = ""))
    /\
    (forall (package d : string) (w w1 : world Disk) (out : list entry),
        find_package_modules view self package d w = (Returned out, w1) ->
        exists searched modules,
          build_py_find_package_modules view self package searched w
          = (Returned modules, w1)
          /\ out = map (_strip_directory self) modules).
Proof.
  intros self base Hbase. split.
  - intros package module f Hpre. repeat split.
    + unfold _strip_directory. now rewrite Hbase, Hpre.
    + intros Hlen. apply slice_from_length. lia.
    + intros Hlen. apply slice_from_past_end. lia.
  - intros package d w w1 out H.
    now apply find_package_modules_returns with (d := d).
Qed.

(** X14. When the files found under the overlay all lie behind the Secondary
    Root and one separator, as they do for a Secondary Root that is
    non-empty and written without a trailing separator, the overlay
    gives back paths rooted at the declared directory: each returned
    path, put behind the Secondary Root and a separator, is a file the
    enumeration found there. *)
Lemma overlay_strips_plain_base :
  forall (self : PythonModuleFinder) (base package d : string)
         (w w1 : world Disk) (out : list entry),
    let fs := view (disk w) (cwd w) in
    let found := glob fs (posixpath.join
                            (posixpath.glob_escape (posixpath.join base d)) "*.py") in
    alternative_build_base self = Some base ->
    d <> "" -> path_exists fs d = false ->
    (forall f, In f found -> PyStr.startswith f (base ++ "/") = true) ->
    find_package_modules view self package d w = (Returned out, w1) ->
    forall p m f', In (p, m, f') out -> In (base ++ "/" ++ f') found.
Proof.
  intros self base package d w w1 out fs found Hbase Hd Hex Hglob Hrun p m f' Hin.
  rewrite (find_package_modules_overlaid self package d base w Hd Hex Hbase) in Hrun.
  unfold enumerate_and_strip, bind, build_py_find_package_modules in Hrun.
  unfold bind in Hrun.
  destruct (build_py_check_package view package (posixpath.join base d) w)
    as [[init | e] w2] eqn:Echk; [|discriminate].
  assert (Hw2 : view (disk w2) (cwd w2) = fs).
  { unfold build_py_check_package, bind, here, ret, raise, emit in Echk.
    simpl in Echk.
    repeat match type of Echk with
           | context [if ?c then _ else _] => destruct c; simpl in Echk
           end; inversion Echk; subst; reflexivity. }
  unfold here, ret in Hrun. simpl in Hrun. rewrite Hw2 in Hrun.
  inversion Hrun; subst out w1. clear Hrun.
  apply in_map_iff in Hin as [[[p0 m0] f] [Hstrip Hf]].
  apply in_flat_map in Hf as [g [Hg Hsel]].
  destruct (negb (abspath fs g =? abspath fs (script_name self)));
    [|contradiction].
  destruct Hsel as [Hsel | []]. inversion Hsel; subst p0 m0 f. clear Hsel.
  fold found in Hg.
  destruct (startswith_app g base "/" (Hglob g Hg)) as [r ->].
  unfold _strip_directory in Hstrip. rewrite Hbase in Hstrip.
  rewrite startswith_own_prefix in Hstrip.
  inversion Hstrip; subst.
  now rewrite slice_from_app_sep.
Qed.

(** C4 (amended). With a Secondary Root configured, [check_module] looks
    first at [Secondary_Root/file_path] and keeps that path when it
    exists, and the given path otherwise; it returns [True] exactly when
    the path kept is a regular file, returns [False] with one warning
    naming the path kept and the module otherwise (so always when the
    file is at neither location), and never raises. *)
Theorem check_module_secondary_first :
  forall (self : PythonModuleFinder) (module module_file : string) (w : world Disk),
    let fs := view (disk w) (cwd w) in
    let kept :=
      match alternative_build_base self with
      | Some base =>
          if path_exists fs (posixpath.join base module_file)
          then posixpath.join base module_file else module_file
      | None => module_file
      end in
    (exists (b : bool) (w1 : world Disk),
        check_module view self module module_file w = (Returned b, w1))
    /\ fst (check_module view self module module_file w) = Returned (path_isfile fs kept)
    /\ (path_isfile fs kept = true ->
        snd (check_module view self module module_file w) = w)
    /\ (path_isfile fs kept = false ->
        snd (check_module view self module module_file w)
        = wrote w [if logger_connected w
                   then Warned (not_found_text kept module)
                   else Printed (not_found_text kept module)])
    /\ (path_isfile fs module_file = false ->
        (forall base, alternative_build_base self = Some base ->
                      path_isfile fs (posixpath.join base module_file) = false) ->
        fst (check_module view self module module_file w) = Returned false).
Proof.
  intros self module module_file w fs kept.
  assert (Hrun : check_module view self module module_file w
                 = if path_isfile fs kept then (Returned true, w)
                   else (Returned false,
                         wrote w [if logger_connected w
                                  then Warned (not_found_text kept module)
                                  else Printed (not_found_text kept module)])).
  { unfold check_module, bind, here. simpl. fold fs. fold kept.
    destruct (path_isfile fs kept); simpl; [reflexivity|].
    unfold _log_warning, emit, wrote, not_found_text.
    destruct (logger_connected w); reflexivity. }
  repeat split.
  - rewrite Hrun. destruct (path_isfile fs kept); eauto.
  - rewrite Hrun. now destruct (path_isfile fs kept).
  - intros H. now rewrite Hrun, H.
  - intros H. now rewrite Hrun, H.
  - intros Hprim Hsec. rewrite Hrun.
    assert (Hk : path_isfile fs kept = false).
    { unfold kept. destruct (alternative_build_base self) as [base|]; [|exact Hprim].
      destruct (path_exists fs (posixpath.join base module_file));
        [now apply Hsec | exact Hprim]. }
    now rewrite Hk.
Qed.

End Discovery.

Lemma find_package_modules_directory_witness :
  find_package_modules (Fixture.view Fixture.installed_only)
    (Fixture.finder (Some "build")) "pkg" "pkg" Fixture.start
  = enumerate_and_strip (Fixture.view Fixture.installed_only)
      (Fixture.finder (Some "build")) "pkg" "build/pkg" Fixture.start
  /\
  find_package_modules (Fixture.view Fixture.lookalike)
    (Fixture.finder (Some "cmake-install")) "p" "cmake-installer" Fixture.start
  = enumerate_and_strip (Fixture.view Fixture.lookalike)
      (Fixture.finder (Some "cmake-install")) "p" "cmake-installer" Fixture.start.
Proof.
  split.
  - apply (proj2 (find_package_modules_directory
                    (Fixture.view Fixture.installed_only)
                    (Fixture.finder (Some "build")) "pkg" "pkg" Fixture.start)
                 "build").
    + discriminate.
    + reflexivity.
    + reflexivity.
  - apply (proj1 (find_package_modules_directory
                    (Fixture.view Fixture.lookalike)
                    (Fixture.finder (Some "cmake-install")) "p" "cmake-installer"
                    Fixture.start)).
    right. reflexivity.
Defined.


(** C10, on the source package [cmake-installer] with the Secondary Root
    [cmake-install]. *)
Lemma strip_is_raw_character_prefix_witness :
  _strip_directory (Fixture.finder (Some "cmake-install")) ("p", "x", "cmake-installer/x.py")
  = ("p", "x", "r/x.py")
  /\ fst (find_package_modules (Fixture.view Fixture.lookalike)
            (Fixture.finder (Some "cmake-install")) "p" "cmake-installer" Fixture.start)
     = Returned [("p", "x", "r/x.py")].
Proof.
  split.
  - apply (proj1 (proj1 (strip_is_raw_character_prefix
                           (Fixture.view Fixture.lookalike)
                           (Fixture.finder (Some "cmake-install")) "cmake-install"
                           eq_refl)
                        "p" "x" "cmake-installer/x.py" eq_refl)).
  - reflexivity.
Defined.

(** C1. With the Secondary Root written with a trailing separator, the
    overlay hands back paths that are not the declared-directory paths,
    and that can still begin with the Secondary Root. *)
Theorem overlay_mangles_trailing_separator_base :
  fst (find_package_modules (Fixture.view Fixture.installed_only)
         (Fixture.finder (Some "build/")) "p" "xbuild/pkg" Fixture.start)
  = Returned [("p", "m", "build/pkg/m.py")]
  /\ PyStr.startswith "build/pkg/m.py" "build/" = true
  /\ fst (find_package_modules (Fixture.view Fixture.installed_only)
            (Fixture.finder (Some "build/")) "p" "pkg" Fixture.start)
     = Returned [("p", "m", "kg/m.py")]
  /\ fst (find_package_modules (Fixture.view Fixture.installed_only)
            (Fixture.finder (Some "build")) "p" "pkg" Fixture.start)
     = Returned [("p", "m", "pkg/m.py")].
Proof. repeat split. Qed.

(** C4 as worded fails: a module file present under the Primary Root is
    reported missing when the Secondary Root holds a directory of that
    name, because the Secondary Root is looked at first. *)
Lemma check_module_not_primary_first :
  Specified.file_exists (Fixture.fs_of Fixture.shadowed) (Some "build") "pkg/m.py" = true
  /\ check_module (Fixture.view Fixture.shadowed) (Fixture.finder (Some "build"))
       "pkg.m" "pkg/m.py" Fixture.start
     = (Returned false,
        wrote Fixture.start [Warned "file build/pkg/m.py (for module pkg.m) not found"]).
Proof. split; reflexivity. Qed.

Lemma check_module_secondary_first_witness :
  fst (check_module (Fixture.view Fixture.installed_only) (Fixture.finder (Some "build"))
         "pkg.n" "pkg/n.py" Fixture.start)
  = Returned false
  /\ snd (check_module (Fixture.view Fixture.installed_only) (Fixture.finder (Some "build"))
            "pkg.n" "pkg/n.py" Fixture.start)
     = wrote Fixture.start [Warned "file pkg/n.py (for module pkg.n) not found"].
Proof.
  pose proof (check_module_secondary_first
                (Fixture.view Fixture.installed_only) (Fixture.finder (Some "build"))
                "pkg.n" "pkg/n.py" Fixture.start) as [_ [_ [_ [Hlog Hneither]]]].
  split.
  - apply Hneither.
    + reflexivity.
    + intros base Hbase. inversion Hbase; subst. reflexivity.
  - apply Hlog. reflexivity.
Defined.

(* ------------------------------------------------------------------ *)
(** ** The scoped working directory *)

Section WorkingDirectory.

Context {Disk : Type} (view : Disk -> string -> filesystem)
        (os_makedirs : Disk -> string -> string -> option Disk).

(** Entering [push_dir] either fails with the working directory where it
    was, or records that directory in [old_cwd]. *)
Lemma push_dir_enter_records (directory : option string) (make_directory : bool)
      (w : world Disk) :
  match push_dir__enter__ view os_makedirs (push_dir__init__ directory make_directory) w with
  | (Returned cm, _) => old_cwd cm = Some (cwd w)
  | (Raised _, w1) => cwd w1 = cwd w
  end.
Proof.
  unfold push_dir__enter__, push_dir__init__, bind, os_getcwd, ret. simpl.
  destruct directory as [[|c d]|]; simpl; try reflexivity.
  destruct make_directory; unfold makedirs, os_chdir, ret; simpl.
  - destruct (os_makedirs (disk w) (cwd w) (String c d)); simpl; [|reflexivity].
    destruct (chdir_target _ (String c d)); reflexivity.
  - destruct (chdir_target _ (String c d)); reflexivity.
Qed.

(** Whatever the body of [with push_dir(...)] does, the working
    directory afterwards is the one before, as long as that directory
    can be entered again when the body ends. *)
Lemma with_push_dir_restores_cwd {A : Type} (directory : option string)
      (make_directory : bool) (body : M Disk A) (w : world Disk) :
  (forall w1 r w2, body w1 = (r, w2) ->
                   chdir_target (view (disk w2) (cwd w2)) (cwd w) = Some (cwd w)) ->
  cwd (snd (with_ (push_dir__enter__ view os_makedirs
                     (push_dir__init__ directory make_directory))
                  (push_dir__exit__ view) body w))
  = cwd w.
Proof.
  intros Hback. unfold with_.
  pose proof (push_dir_enter_records directory make_directory w) as Henter.
  destruct (push_dir__enter__ view os_makedirs
              (push_dir__init__ directory make_directory) w) as [[cm | e] w1];
    [|exact Henter].
  destruct (body w1) as [r w2] eqn:Ebody.
  unfold push_dir__exit__. rewrite Henter. unfold os_chdir.
  rewrite (Hback w1 r w2 Ebody). reflexivity.
Qed.

(** C5. After [find_all_modules(project_dir)] the working directory is
    the one before the call, whether the inherited discovery returned or
    raised and whether or not the project directory could be entered;
    the starting directory is assumed to be still there when the
    discovery ends. *)
Theorem find_all_modules_restores_cwd :
  forall (build_py_find_all_modules : PythonModuleFinder -> M Disk (list entry))
         (self : PythonModuleFinder) (project_dir : option string) (w : world Disk),
    (forall w1 r w2,
        build_py_find_all_modules self w1 = (r, w2) ->
        chdir_target (view (disk w2) (cwd w2)) (cwd w) = Some (cwd w)) ->
    cwd (snd (find_all_modules view os_makedirs build_py_find_all_modules
                self project_dir w))
    = cwd w.
Proof.
  intros inherited self project_dir w Hback.
  unfold find_all_modules. now apply with_push_dir_restores_cwd.
Qed.

End WorkingDirectory.

(** C5 on a discovery that fails inside the project directory. *)
Lemma find_all_modules_restores_cwd_witness :
  find_all_modules (Fixture.view Fixture.with_manifest) Fixture.os_makedirs
    (fun _ w => (Raised (DistutilsFileError "package directory 'pkg' does not exist"), w))
    (Fixture.finder None) (Some "/proj/sub") Fixture.start
  = (Raised (DistutilsFileError "package directory 'pkg' does not exist"), Fixture.start)
  /\ cwd (snd (find_all_modules (Fixture.view Fixture.with_manifest) Fixture.os_makedirs
                 (fun _ w => (Raised (DistutilsFileError
                                        "package directory 'pkg' does not exist"), w))
                 (Fixture.finder None) (Some "/proj/sub") Fixture.start))
     = "/proj".
Proof.
  split.
  - reflexivity.
  - apply (find_all_modules_restores_cwd
             (Fixture.view Fixture.with_manifest) Fixture.os_makedirs
             (fun _ w => (Raised (DistutilsFileError
                                    "package directory 'pkg' does not exist"), w))
             (Fixture.finder None) (Some "/proj/sub") Fixture.start).
    intros w1 r w2 _. reflexivity.
Defined.

(* ------------------------------------------------------------------ *)
(** ** The manifest template *)

Lemma wrote_nothing {Disk} (w : world Disk) : wrote w [] = w.
Proof. destruct w. unfold wrote. simpl. now rewrite app_nil_r. Qed.

Section ManifestTemplate.

Context {Disk : Type} (view : Disk -> string -> filesystem).
Context {directive : Type} (_parse_template_line : string -> outcome directive)
        (apply_directive : filesystem -> directive -> list string -> list string).

(** The loop ends, returns the files of the directives that parse, and
    prints one report for each malformed line. *)
Lemma read_template_runs (filename : string) (lines : list (line_ref * string)) :
  Forall (fun l => parses_or_malformed _parse_template_line (snd l)) lines ->
  forall (files : list string) (w : world Disk),
    read_template view _parse_template_line apply_directive filename lines files w
    = (Returned (fold_left (fun acc d => apply_directive (view (disk w) (cwd w)) d acc)
                           (valid_directives _parse_template_line lines) files),
       wrote w (reports _parse_template_line filename lines)).
Proof.
  induction 1 as [|[n line] rest Hline Hrest IH]; intros files w.
  - simpl. unfold ret. now rewrite wrote_nothing.
  - simpl. unfold process_template_line, bind, here, reports, malformed.
    unfold parses_or_malformed in Hline. simpl in *.
    destruct (_parse_template_line line) as [d | e]; simpl.
    + unfold ret. rewrite IH. reflexivity.
    + destruct e; simpl in Hline; try (exfalso; now apply Hline);
        unfold raise, emit; simpl;
        match goal with
        | |- context [read_template _ _ _ _ _ _ ?w'] => rewrite (IH files w')
        end; simpl; unfold wrote, report; simpl;
        now rewrite <- app_assoc.
Qed.

(** C6. A template all of whose lines parse or are malformed is read to
    the end: the call returns, the files are those the valid directives
    yield in file order, and the output gains, for each malformed line,
    one printed line with the file name, the line number and the
    message. *)
Theorem parse_manifestin_skips_malformed :
  forall (template : string) (lines : list (line_ref * string)) (w : world Disk),
    let fs := view (disk w) (cwd w) in
    path_exists fs template = true ->
    text_lines fs template = Some lines ->
    Forall (fun l => parses_or_malformed _parse_template_line (snd l)) lines ->
    parse_manifestin view _parse_template_line apply_directive template w
    = (Returned (fold_left (fun acc d => apply_directive fs d acc)
                           (valid_directives _parse_template_line lines) []),
       wrote w (reports _parse_template_line template lines))
    /\ (forall n line msg,
           In (n, line) lines ->
           malformed _parse_template_line line = Some msg ->
           In (report template n msg) (reports _parse_template_line template lines))
    /\ valid_directives _parse_template_line
         (filter (fun l => match malformed _parse_template_line (snd l) with
                           | Some _ => false
                           | None => true
                           end) lines)
       = valid_directives _parse_template_line lines.
Proof.
  intros template lines w fs Hex Hlines Hok. repeat split.
  - unfold parse_manifestin, bind, here. simpl. fold fs.
    rewrite Hex, Hlines. simpl. now apply read_template_runs.
  - intros n line msg Hin Hmal. unfold reports.
    apply in_flat_map. exists (n, line). split; [exact Hin|].
    simpl. rewrite Hmal. now left.
  - clear Hlines. induction Hok as [|[n line] rest Hline Hrest IH]; [reflexivity|].
    unfold malformed, parses_or_malformed in *. simpl in *.
    destruct (_parse_template_line line) as [d | e] eqn:E; simpl.
    + rewrite E. simpl. now rewrite IH.
    + destruct (caught e); [exact IH | contradiction].
Qed.

(** C7. For a template path that does not exist, [parse_manifestin]
    returns the empty list, raises nothing and writes nothing. *)
Theorem parse_manifestin_missing_template :
  forall (template : string) (w : world Disk),
    path_exists (view (disk w) (cwd w)) template = false ->
    parse_manifestin view _parse_template_line apply_directive template w
    = (Returned [], w).
Proof.
  intros template w Hex. unfold parse_manifestin, bind, here. simpl.
  now rewrite Hex.
Qed.

End ManifestTemplate.

(** C6 on a three-line template whose second line is no directive. *)
Lemma parse_manifestin_skips_malformed_witness :
  parse_manifestin (Fixture.view Fixture.with_manifest) Fixture.toy_parse Fixture.toy_apply
    "MANIFEST.in" Fixture.start
  = (Returned ["a.txt"; "b.txt"],
     wrote Fixture.start [Printed "MANIFEST.in, line 2: unknown action 'frobnicate'"]).
Proof.
  apply (proj1 (parse_manifestin_skips_malformed
                  (Fixture.view Fixture.with_manifest) Fixture.toy_parse Fixture.toy_apply
                  "MANIFEST.in"
                  [(LineAt 1, "include a.txt"); (LineAt 2, "frobnicate");
                   (LinesJoined 3 4, "include b.txt")]
                  Fixture.start eq_refl eq_refl
                  ltac:(repeat constructor; discriminate))).
Defined.

(** C7 on a project without [MANIFEST.txt]. *)
Lemma parse_manifestin_missing_template_witness :
  parse_manifestin (Fixture.view Fixture.with_manifest) Fixture.toy_parse Fixture.toy_apply
    "MANIFEST.txt" Fixture.start
  = (Returned [], Fixture.start).
Proof.
  apply (parse_manifestin_missing_template
           (Fixture.view Fixture.with_manifest) Fixture.toy_parse Fixture.toy_apply
           "MANIFEST.txt" Fixture.start).
  reflexivity.
Defined.

(* ------------------------------------------------------------------ *)
(** ** The package-prefix stripper *)

Section StripPackage.

Import setuptools_wrap.
Local Open Scope list_scope.

Lemma strip_leading_app (parts rest : list string) :
  strip_leading parts (parts ++ rest) = Some rest.
Proof.
  induction parts as [|p parts IH]; simpl.
  - now destruct rest.
  - now rewrite String.eqb_refl.
Qed.

Lemma strip_leading_some (parts segs rest : list string) :
  strip_leading parts segs = Some rest -> segs = parts ++ rest.
Proof.
  revert segs. induction parts as [|p parts IH]; intros segs H.
  - destruct segs; simpl in H; now inversion H.
  - destruct segs as [|x segs]; simpl in H; [discriminate|].
    destruct (p =? x) eqn:E; [|discriminate].
    apply String.eqb_eq in E. subst x. simpl. f_equal. now apply IH.
Qed.

(** C2. When the segments of a relative path begin with the whole of a
    non-empty component list, [strip_package] returns the remaining
    segments joined by [/] (the empty string when none remain); with an
    empty component list, an absolute path, or segments that do not
    begin with the whole list, it returns the path unchanged. *)
Theorem strip_package_leading_segments :
  forall (package_parts : list string) (module_file : string),
    (forall rest : list string,
        package_parts <> [] -> posixpath.isabs module_file = false ->
        segments module_file = package_parts ++ rest ->
        strip_package package_parts module_file = String.concat "/" rest)
    /\ (package_parts <> [] -> posixpath.isabs module_file = false ->
        segments module_file = package_parts ->
        strip_package package_parts module_file = "")
    /\ (package_parts = [] -> strip_package package_parts module_file = module_file)
    /\ (posixpath.isabs module_file = true ->
        strip_package package_parts module_file = module_file)
    /\ ((forall rest : list string, segments module_file <> package_parts ++ rest) ->
        strip_package package_parts module_file = module_file).
Proof.
  intros parts f.
  assert (Hfull : forall rest, parts <> [] -> posixpath.isabs f = false ->
                               segments f = parts ++ rest ->
                               strip_package parts f = String.concat "/" rest).
  { intros rest Hne Hrel Hseg. unfold strip_package.
    destruct parts as [|p parts]; [contradiction|].
    now rewrite Hrel, Hseg, strip_leading_app. }
  repeat split.
  - exact Hfull.
  - intros Hne Hrel Hseg. apply (Hfull [] Hne Hrel). now rewrite app_nil_r.
  - intros ->. reflexivity.
  - intros Habs. unfold strip_package. destruct parts; [reflexivity|].
    now rewrite Habs.
  - intros Hnot. unfold strip_package. destruct parts as [|p parts]; [reflexivity|].
    destruct (posixpath.isabs f); [reflexivity|].
    destruct (strip_leading (p :: parts) (segments f)) as [rest|] eqn:E; [|reflexivity].
    apply strip_leading_some in E. exfalso. exact (Hnot rest E).
Qed.

(** The rows of [test_strip_package]. *)
Lemma strip_package_test_table :
  strip_package [] "" = ""
  /\ strip_package [] "foo/file.py" = "foo/file.py"
  /\ strip_package ["foo"] "" = ""
  /\ strip_package ["foo"] "foo/file.py" = "file.py"
  /\ strip_package ["foo"] "foo\file.py" = "file.py"
  /\ strip_package ["foo"; "bar"] "foo/file.py" = "foo/file.py"
  /\ strip_package ["foo"; "bar"] "foo/bar/file.py" = "file.py"
  /\ strip_package ["foo"; "bar"] "foo/bar/baz/file.py" = "baz/file.py"
  /\ strip_package ["foo"] "/foo/file.py" = "/foo/file.py".
Proof. repeat split. Qed.

End StripPackage.

(** C2 on [foo.bar]: a nested file is stripped, a file of [foo] alone is
    left as it is. *)
Lemma strip_package_leading_segments_witness :
  setuptools_wrap.strip_package ["foo"; "bar"] "foo\bar/baz/file.py" = "baz/file.py"
  /\ setuptools_wrap.strip_package ["foo"; "bar"] "foo/file.py" = "foo/file.py".
Proof.
  split.
  - apply (proj1 (strip_package_leading_segments ["foo"; "bar"] "foo\bar/baz/file.py")
                 ["baz"; "file.py"]).
    + discriminate.
    + reflexivity.
    + reflexivity.
  - apply (proj2 (proj2 (proj2 (proj2
             (strip_package_leading_segments ["foo"; "bar"] "foo/file.py"))))).
    intros rest H. discriminate H.
Defined.

(* ------------------------------------------------------------------ *)
(** ** More on the path normalisers *)

Lemma contains_app (a b : string) (c : ascii) :
  PyStr.contains (a ++ b) c = PyStr.contains a c || PyStr.contains b c.
Proof.
  induction a as [|x a IH]; simpl; [reflexivity|].
  now rewrite IH, orb_assoc.
Qed.

Lemma replace_removes (old : ascii) (new s : string) :
  PyStr.contains new old = false ->
  PyStr.contains (PyStr.replace old new s) old = false.
Proof.
  intros Hnew. induction s as [|x s IH]; simpl; [reflexivity|].
  destruct (Ascii.eqb x old) eqn:E.
  - now rewrite contains_app, Hnew, IH.
  - simpl. now rewrite E, IH.
Qed.

Lemma replace_adds_nothing (old c : ascii) (new s : string) :
  PyStr.contains new c = false -> PyStr.contains s c = false ->
  PyStr.contains (PyStr.replace old new s) c = false.
Proof.
  intros Hnew. induction s as [|x s IH]; simpl; [reflexivity|].
  intros H. apply orb_false_iff in H as [Hx Hs].
  destruct (Ascii.eqb x old).
  - now rewrite contains_app, Hnew, IH.
  - simpl. now rewrite Hx, IH.
Qed.

Lemma replace_changes (old : ascii) (new s : string) :
  PyStr.contains new old = false ->
  PyStr.replace old new s = s -> PyStr.contains s old = false.
Proof.
  intros Hnew Hfix. rewrite <- Hfix. now apply replace_removes.
Qed.

Lemma replace_char_length (old new : ascii) (s : string) :
  String.length (PyStr.replace old (String new "") s) = String.length s.
Proof.
  induction s as [|x s IH]; simpl; [reflexivity|].
  destruct (Ascii.eqb x old); simpl; now rewrite IH.
Qed.

(** X1. What [to_unix_path] returns holds no backslash and is as long as
    the path given. *)
Theorem to_unix_path_no_backslash :
  forall x : string,
  exists y : string,
    to_unix_path (Some x) = Some y
    /\ PyStr.contains y backslash = false
    /\ String.length y = String.length x.
Proof.
  intros x. eexists. split; [reflexivity|]. split.
  - now apply replace_removes.
  - apply replace_char_length.
Qed.

(** X2. The paths [to_unix_path] gives back as they are, are exactly
    those without a backslash. *)
Theorem to_unix_path_fixed_points :
  forall x : string,
    to_unix_path (Some x) = Some x <-> PyStr.contains x backslash = false.
Proof.
  intros x. unfold to_unix_path. split.
  - intros H. inversion H as [Hfix]. rewrite Hfix.
    now apply (replace_changes backslash "/" x).
  - intros H. now rewrite replace_absent.
Qed.

(** X3. A separator character occurs in what [to_platform_path] returns
    only if it occurs in [os.sep]. *)
Theorem to_platform_path_only_os_sep :
  forall (os_sep x : string),
  exists y : string,
    to_platform_path os_sep (Some x) = Some y
    /\ (PyStr.contains os_sep slash = false -> PyStr.contains y slash = false)
    /\ (PyStr.contains os_sep backslash = false -> PyStr.contains y backslash = false).
Proof.
  intros os_sep x. eexists. split; [reflexivity|]. split.
  - intros H. apply replace_adds_nothing; [exact H|]. now apply replace_removes.
  - intros H. now apply replace_removes.
Qed.

Lemma to_platform_path_posix (x : string) :
  to_platform_path "/" (Some x) = to_unix_path (Some x).
Proof.
  unfold to_platform_path, to_unix_path. f_equal. f_equal.
  induction x as [|c x IH]; simpl; [reflexivity|].
  destruct (Ascii.eqb c slash) eqn:E; simpl.
  - apply Ascii.eqb_eq in E. subst c. now rewrite IH.
  - now rewrite IH.
Qed.

Lemma replace_by_itself (c : ascii) (x : string) :
  PyStr.replace c (String c "") x = x.
Proof.
  induction x as [|a x IH]; simpl; [reflexivity|].
  destruct (Ascii.eqb a c) eqn:E; simpl.
  - apply Ascii.eqb_eq in E. subst a. now rewrite IH.
  - now rewrite IH.
Qed.

(** X4. On a host whose separator is [/] or [\], normalising to the
    platform twice is normalising once. *)
Theorem to_platform_path_idempotent :
  forall (os_sep x : string),
    is_os_sep os_sep ->
    exists y : string,
      to_platform_path os_sep (Some x) = Some y
      /\ to_platform_path os_sep (Some y) = Some y.
Proof.
  intros os_sep x [-> | ->]; eexists; (split; [reflexivity|]);
    unfold to_platform_path; f_equal.
  - change "/" with (String slash "") at 2 4. rewrite !replace_by_itself.
    now apply (replace_idempotent backslash "/").
  - change "\" with (String backslash "") at 1 3. rewrite !(replace_by_itself backslash).
    now apply (replace_idempotent slash "\").
Qed.

Lemma to_platform_path_idempotent_witness :
  to_platform_path "\" (Some "a/b\c") = Some "a\b\c"
  /\ to_platform_path "\" (Some "a\b\c") = Some "a\b\c".
Proof.
  destruct (to_platform_path_idempotent "\" "a/b\c" (or_intror eq_refl))
    as [y [Hy Hyy]].
  simpl in Hy. inversion Hy; subst y. split; [reflexivity | exact Hyy].
Defined.

Lemma replace_after_replace (a b : ascii) (x : string) :
  a <> b ->
  PyStr.replace a (String b "") (PyStr.replace b (String a "") x)
  = PyStr.replace a (String b "") x.
Proof.
  intros Hab. induction x as [|c x IH]; simpl; [reflexivity|].
  destruct (Ascii.eqb c b) eqn:Eb; simpl.
  - apply Ascii.eqb_eq in Eb. subst c. rewrite Ascii.eqb_refl.
    destruct (Ascii.eqb b a) eqn:Eba.
    + apply Ascii.eqb_eq in Eba. congruence.
    + now rewrite IH.
  - destruct (Ascii.eqb c a); now rewrite IH.
Qed.

(** X5. On such a host the two normalisers absorb each other: the unix
    form of a platform path is the unix form of the path, and the
    platform form of a unix path is the platform form of the path. *)
Theorem normalisers_absorb :
  forall (os_sep x : string),
    is_os_sep os_sep ->
    exists p u : string,
      to_platform_path os_sep (Some x) = Some p
      /\ to_unix_path (Some x) = Some u
      /\ to_unix_path (Some p) = Some u
      /\ to_platform_path os_sep (Some u) = Some p.
Proof.
  intros os_sep x [-> | ->]; do 2 eexists;
    (split; [reflexivity|]); (split; [reflexivity|]);
    unfold to_platform_path, to_unix_path; split; f_equal.
  - change "/" with (String slash "") at 2 3. rewrite replace_by_itself.
    now apply (replace_idempotent backslash "/").
  - change "/" with (String slash "") at 1 2 4. rewrite !replace_by_itself.
    now apply (replace_idempotent backslash "/").
  - change "\" with (String backslash "") at 1. rewrite (replace_by_itself backslash).
    apply (replace_after_replace backslash slash). discriminate.
  - change "\" with (String backslash "") at 1 3. rewrite !(replace_by_itself backslash).
    change "/" with (String slash ""). change "\" with (String backslash "").
    apply (replace_after_replace slash backslash). discriminate.
Qed.

Lemma normalisers_absorb_witness :
  to_unix_path (Some "a\b\c") = Some "a/b/c"
  /\ to_platform_path "\" (Some "a/b/c") = Some "a\b\c".
Proof.
  destruct (normalisers_absorb "\" "a/b\c" (or_intror eq_refl))
    as [p [u [Hp [Hu [Hpu Hup]]]]].
  simpl in Hp, Hu. inversion Hp; subst p. inversion Hu; subst u.
  split; [exact Hpu | exact Hup].
Defined.

(* ------------------------------------------------------------------ *)
(** ** More on [push_dir] *)

Section ScopedDirectory.

Context {Disk : Type} (view : Disk -> string -> filesystem)
        (os_makedirs : Disk -> string -> string -> option Disk).

(** Entering a directory that is given, without creating it. *)
Lemma push_dir_enter_given (c : ascii) (d : string) (w : world Disk) :
  push_dir__enter__ view os_makedirs (push_dir__init__ (Some (String c d)) false) w
  = match chdir_target (view (disk w) (cwd w)) (String c d) with
    | Some t => (Returned {| directory := Some (String c d); make_directory := false;
                             old_cwd := Some (cwd w) |}, moved w t)
    | None => (Raised (OSError (String c d)), w)
    end.
Proof.
  unfold push_dir__enter__, push_dir__init__, bind, os_getcwd, os_chdir, ret. simpl.
  destruct (chdir_target (view (disk w) (cwd w)) (String c d)); reflexivity.
Qed.

(** X6. A [with push_dir(directory, make_directory)] block ends in the
    working directory it started from, whatever the directory, the flag
    and the body (returning, raising, or changing directory itself), as
    long as the starting directory can be entered again when the body
    ends. *)
Theorem push_dir_restores_cwd :
  forall (A : Type) (directory : option string) (make_directory : bool)
         (body : M Disk A) (w : world Disk),
    (forall w1 r w2, body w1 = (r, w2) ->
                     chdir_target (view (disk w2) (cwd w2)) (cwd w) = Some (cwd w)) ->
    cwd (snd (with_ (push_dir__enter__ view os_makedirs
                       (push_dir__init__ directory make_directory))
                    (push_dir__exit__ view) body w))
    = cwd w.
Proof.
  intros A directory make_directory body w Hback.
  now apply with_push_dir_restores_cwd.
Qed.

(** X7. The block hands on what its body did: once the directory has
    been entered and can be left again, the block returns or raises as
    the body does, and leaves the body's world with only the working
    directory set back. *)
Theorem push_dir_keeps_outcome :
  forall (A : Type) (directory : option string) (make_directory : bool)
         (body : M Disk A) (w w1 w2 : world Disk) (cm : push_dir) (r : outcome A),
    push_dir__enter__ view os_makedirs (push_dir__init__ directory make_directory) w
    = (Returned cm, w1) ->
    body w1 = (r, w2) ->
    chdir_target (view (disk w2) (cwd w2)) (cwd w) = Some (cwd w) ->
    with_ (push_dir__enter__ view os_makedirs (push_dir__init__ directory make_directory))
          (push_dir__exit__ view) body w
    = (r, moved w2 (cwd w)).
Proof.
  intros A directory make_directory body w w1 w2 cm r Henter Hbody Hback.
  pose proof (push_dir_enter_records view os_makedirs directory make_directory w) as Hrec.
  unfold with_. rewrite Henter in *. rewrite Hbody.
  unfold push_dir__exit__. rewrite Hrec. unfold os_chdir. now rewrite Hback.
Qed.


(** X9. With [make_directory] the directory is created first and entered
    on the disk that has it; without a directory ([None] or the empty
    string) the body starts where the block does, on an unchanged disk. *)
Theorem push_dir_body_starts :
  forall (c : ascii) (d : string) (w : world Disk),
    (forall (k : Disk) (t : string),
        os_makedirs (disk w) (cwd w) (String c d) = Some k ->
        chdir_target (view k (cwd w)) (String c d) = Some t ->
        exists cm,
          push_dir__enter__ view os_makedirs (push_dir__init__ (Some (String c d)) true) w
          = (Returned cm,
             {| cwd := t; disk := k; logger_connected := logger_connected w;
                output := output w |})
          /\ old_cwd cm = Some (cwd w))
    /\ (exists cm, push_dir__enter__ view os_makedirs (push_dir__init__ None false) w
                   = (Returned cm, w) /\ old_cwd cm = Some (cwd w))
    /\ (exists cm, push_dir__enter__ view os_makedirs (push_dir__init__ (Some "") true) w
                   = (Returned cm, w) /\ old_cwd cm = Some (cwd w)).
Proof.
  intros c d w. repeat split.
  - intros k t Hmk Hcd.
    unfold push_dir__enter__, push_dir__init__, bind, os_getcwd, makedirs, os_chdir, ret.
    simpl. rewrite Hmk. simpl. rewrite Hcd. eexists. split; reflexivity.
  - eexists. split; reflexivity.
  - eexists. split; reflexivity.
Qed.

(** X10. One [push_dir] object entered twice, one block inside the
    other, does not bring the process back: the inner block overwrites
    the directory the object remembers, and both blocks leave for the
    directory the outer one had entered. *)
Theorem push_dir_not_reentrant :
  forall (A : Type) (c : ascii) (d : string) (body : M Disk A)
         (w w3 : world Disk) (t1 t2 : string) (r : outcome A),
    chdir_target (view (disk w) (cwd w)) (String c d) = Some t1 ->
    chdir_target (view (disk w) t1) (String c d) = Some t2 ->
    body (moved w t2) = (r, w3) ->
    chdir_target (view (disk w3) (cwd w3)) t1 = Some t1 ->
    chdir_target (view (disk w3) t1) t1 = Some t1 ->
    with_same_push_dir_twice view os_makedirs
      (push_dir__init__ (Some (String c d)) false) body w
    = (r, moved w3 t1).
Proof.
  intros A c d body w w3 t1 t2 r H1 H2 Hbody H3 H4.
  unfold with_same_push_dir_twice. rewrite push_dir_enter_given, H1.
  unfold with_.
  change {| directory := Some (String c d); make_directory := false;
            old_cwd := Some (cwd w) |}
    with {| directory := directory (push_dir__init__ (Some (String c d)) false);
            make_directory := make_directory (push_dir__init__ (Some (String c d)) false);
            old_cwd := Some (cwd w) |}.
  unfold push_dir__enter__ at 1. unfold bind, os_getcwd, os_chdir, ret. simpl.
  rewrite H2. simpl. unfold moved in Hbody. simpl in Hbody. rewrite Hbody.
  unfold push_dir__exit__, os_chdir. simpl. rewrite H3. simpl. rewrite H4.
  reflexivity.
Qed.

End ScopedDirectory.

Lemma push_dir_restores_cwd_witness :
  cwd (snd (with_ (push_dir__enter__ (Fixture.view Fixture.with_manifest) Fixture.os_makedirs
                     (push_dir__init__ (Some "/proj/sub") true))
                  (push_dir__exit__ (Fixture.view Fixture.with_manifest))
                  (check_module (Fixture.view Fixture.with_manifest) (Fixture.finder None)
                     "a" "a.py")
                  Fixture.start))
  = "/proj".
Proof.
  apply (push_dir_restores_cwd (Fixture.view Fixture.with_manifest) Fixture.os_makedirs
           bool (Some "/proj/sub") true).
  intros w1 r w2 _. reflexivity.
Defined.

Lemma push_dir_keeps_outcome_witness :
  with_ (push_dir__enter__ (Fixture.view Fixture.with_manifest) Fixture.os_makedirs
           (push_dir__init__ (Some "/proj/sub") false))
        (push_dir__exit__ (Fixture.view Fixture.with_manifest))
        (check_module (Fixture.view Fixture.with_manifest) (Fixture.finder None) "a" "a.py")
        Fixture.start
  = (Returned false,
     wrote Fixture.start [Warned "file a.py (for module a) not found"]).
Proof.
  apply (push_dir_keeps_outcome (Fixture.view Fixture.with_manifest) Fixture.os_makedirs
           bool (Some "/proj/sub") false _ Fixture.start
           (moved Fixture.start "/proj/sub")
           (wrote (moved Fixture.start "/proj/sub")
                  [Warned "file a.py (for module a) not found"])
           {| directory := Some "/proj/sub"; make_directory := false;
              old_cwd := Some "/proj" |});
    reflexivity.
Defined.

Lemma push_dir_not_reentrant_witness :
  with_same_push_dir_twice (Fixture.view Fixture.with_manifest) Fixture.os_makedirs
    (push_dir__init__ (Some "/proj/sub") false)
    (check_module (Fixture.view Fixture.with_manifest) (Fixture.finder None) "a" "a.py")
    Fixture.start
  = (Returned false,
     moved (wrote Fixture.start [Warned "file a.py (for module a) not found"]) "/proj/sub").
Proof.
  apply (push_dir_not_reentrant (Fixture.view Fixture.with_manifest) Fixture.os_makedirs
           bool "/"%char "proj/sub" _ Fixture.start
           (wrote (moved Fixture.start "/proj/sub")
                  [Warned "file a.py (for module a) not found"])
           "/proj/sub" "/proj/sub");
    reflexivity.
Defined.

(* ------------------------------------------------------------------ *)
(** ** More on [find_package_modules] *)

Section Overlay.

Context {Disk : Type} (view : Disk -> string -> filesystem).

Lemma strip_without_base (self : PythonModuleFinder) (modules : list entry) :
  alternative_build_base self = None ->
  map (_strip_directory self) modules = modules.
Proof.
  intros Hnone. induction modules as [|[[p m] f] rest IH]; simpl; [reflexivity|].
  rewrite IH. unfold _strip_directory. now rewrite Hnone.
Qed.

Lemma strip_keeps_names (self : PythonModuleFinder) (modules : list entry) :
  map fst (map (_strip_directory self) modules) = map fst modules.
Proof.
  induction modules as [|[[p m] f] rest IH]; simpl; [reflexivity|].
  now rewrite IH.
Qed.

Lemma join_nonempty (a b : string) : b <> "" -> posixpath.join a b <> "".
Proof.
  intros Hb. unfold posixpath.join.
  destruct (PyStr.startswith b "/"); [exact Hb|].
  destruct ((a =? "") || PyStr.endswith a slash).
  - destruct a; simpl; [exact Hb | discriminate].
  - destruct a; simpl; discriminate.
Qed.

(** The inherited check of a directory that is not there. *)
Lemma build_py_rejects_missing_directory
      (self : PythonModuleFinder) (package dir : string) (w : world Disk) :
  dir <> "" -> path_exists (view (disk w) (cwd w)) dir = false ->
  build_py_find_package_modules view self package dir w
  = (Raised (DistutilsFileError ("package directory '" ++ dir ++ "' does not exist")), w).
Proof.
  intros Hdir Hex.
  unfold build_py_find_package_modules, build_py_check_package, bind, here, raise.
  simpl. rewrite Hex.
  destruct (dir =? "") eqn:E; [apply String.eqb_eq in E; contradiction|].
  reflexivity.
Qed.

Lemma find_package_modules_without_base_eq
      (self : PythonModuleFinder) (package d : string) (w : world Disk) :
  alternative_build_base self = None ->
  find_package_modules view self package d w
  = build_py_find_package_modules view self package d w.
Proof.
  intros Hnone. unfold find_package_modules.
  unfold bind at 1, here. simpl. rewrite Hnone.
  replace (if negb (d =? "") && negb (path_exists (view (disk w) (cwd w)) d)
           then d else d) with d by now destruct (_ && _).
  unfold bind, ret.
  destruct (build_py_find_package_modules view self package d w) as [[modules | e] w1];
    [|reflexivity].
  now rewrite strip_without_base.
Qed.

(** X11. Without a Secondary Root the override changes nothing: it does
    what the inherited [find_package_modules] does, result and log, and
    so every path it returns is one the inherited enumeration found. *)
Theorem find_package_modules_without_base :
  forall (self : PythonModuleFinder) (package d : string) (w : world Disk),
    alternative_build_base self = None ->
    find_package_modules view self package d w
    = build_py_find_package_modules view self package d w.
Proof.
  intros self package d w Hnone.
  now apply find_package_modules_without_base_eq.
Qed.

(** X12. Stripping touches file paths only: the entries returned are as
    many as the inherited enumeration found, in the same order, each with
    its package and module name. *)
Theorem find_package_modules_keeps_names :
  forall (self : PythonModuleFinder) (package d : string) (w w1 : world Disk)
         (out : list entry),
    find_package_modules view self package d w = (Returned out, w1) ->
    exists searched modules,
      build_py_find_package_modules view self package searched w = (Returned modules, w1)
      /\ map fst out = map fst modules
      /\ List.length out = List.length modules.
Proof.
  intros self package d w w1 out Hrun.
  destruct (find_package_modules_returns view self package d w w1 out Hrun)
    as [searched [modules [Hbase ->]]].
  exists searched, modules. repeat split.
  - exact Hbase.
  - apply strip_keeps_names.
  - apply length_map.
Qed.

(** X13. A declared directory that is in neither root makes discovery of
    the package fail with [DistutilsFileError]; with a Secondary Root
    configured the message names the directory under the Secondary Root,
    not the declared one. *)
Theorem find_package_modules_nowhere :
  forall (self : PythonModuleFinder) (package d : string) (w : world Disk),
    d <> "" -> path_exists (view (disk w) (cwd w)) d = false ->
    (forall base : string,
        alternative_build_base self = Some base ->
        path_exists (view (disk w) (cwd w)) (posixpath.join base d) = false ->
        find_package_modules view self package d w
        = (Raised (DistutilsFileError
                     ("package directory '" ++ posixpath.join base d ++ "' does not exist")),
           w))
    /\ (alternative_build_base self = None ->
        find_package_modules view self package d w
        = (Raised (DistutilsFileError ("package directory '" ++ d ++ "' does not exist")),
           w)).
Proof.
  intros self package d w Hd Hex. split.
  - intros base Hbase Hsec.
    rewrite (find_package_modules_overlaid view self package d base w Hd Hex Hbase).
    unfold enumerate_and_strip, bind.
    rewrite build_py_rejects_missing_directory;
      [reflexivity | now apply join_nonempty | exact Hsec].
  - intros Hnone.
    rewrite (find_package_modules_without_base_eq self package d w Hnone).
    now apply build_py_rejects_missing_directory.
Qed.

End Overlay.

Lemma find_package_modules_without_base_witness :
  find_package_modules (Fixture.view Fixture.lookalike) (Fixture.finder None)
    "p" "cmake-installer" Fixture.start
  = (Returned [("p", "x", "cmake-installer/x.py")],
     wrote Fixture.start
       [Warned "package init file 'cmake-installer/__init__.py' not found (or not a regular file)"]).
Proof.
  rewrite (find_package_modules_without_base (Fixture.view Fixture.lookalike)
             (Fixture.finder None) "p" "cmake-installer" Fixture.start eq_refl).
  reflexivity.
Defined.

Lemma find_package_modules_keeps_names_witness :
  exists searched modules,
    build_py_find_package_modules (Fixture.view Fixture.installed_only)
      (Fixture.finder (Some "build")) "p" searched Fixture.start
    = (Returned modules,
       wrote Fixture.start
         [Warned "package init file 'build/pkg/__init__.py' not found (or not a regular file)"])
    /\ map fst [("p", "m", "pkg/m.py")] = map fst modules
    /\ List.length [("p", "m", "pkg/m.py")] = List.length modules.
Proof.
  apply (find_package_modules_keeps_names (Fixture.view Fixture.installed_only)
           (Fixture.finder (Some "build")) "p" "pkg" Fixture.start).
  reflexivity.
Defined.

Lemma find_package_modules_nowhere_witness :
  find_package_modules (Fixture.view Fixture.lookalike) (Fixture.finder (Some "cmake-install"))
    "p" "pkg" Fixture.start
  = (Raised (DistutilsFileError "package directory 'cmake-install/pkg' does not exist"),
     Fixture.start).
Proof.
  apply (proj1 (find_package_modules_nowhere (Fixture.view Fixture.lookalike)
                  (Fixture.finder (Some "cmake-install")) "p" "pkg" Fixture.start
                  ltac:(discriminate) eq_refl)
               "cmake-install" eq_refl eq_refl).
Defined.

(** X14 on the package [pkg] installed under [build]. *)
Lemma overlay_strips_plain_base_witness :
  In "build/pkg/m.py"
     (glob (Fixture.fs_of Fixture.installed_only) "build/pkg/*.py").
Proof.
  apply (overlay_strips_plain_base (Fixture.view Fixture.installed_only)
           (Fixture.finder (Some "build")) "build" "p" "pkg" Fixture.start
           (wrote Fixture.start
              [Warned "package init file 'build/pkg/__init__.py' not found (or not a regular file)"])
           [("p", "m", "pkg/m.py")]
           eq_refl ltac:(discriminate) eq_refl
           ltac:(intros f [<- | []]; reflexivity)
           eq_refl "p" "m" "pkg/m.py" (or_introl eq_refl)).
Defined.

(* ------------------------------------------------------------------ *)
(** ** More on [parse_manifestin] *)

Section ManifestErrors.

Context {Disk : Type} (view : Disk -> string -> filesystem).
Context {directive : Type} (_parse_template_line : string -> outcome directive)
        (apply_directive : filesystem -> directive -> list string -> list string).

(** Reading two runs of lines is reading the first and, unless it
    raised, the second from the files the first left. *)
Lemma read_template_app (filename : string) (l1 l2 : list (line_ref * string)) :
  forall (files : list string) (w : world Disk),
    read_template view _parse_template_line apply_directive filename (l1 ++ l2)%list files w
    = match read_template view _parse_template_line apply_directive filename l1 files w with
      | (Returned files1, w1) =>
          read_template view _parse_template_line apply_directive filename l2 files1 w1
      | (Raised e, w1) => (Raised e, w1)
      end.
Proof.
  induction l1 as [|[n line] rest IH]; intros files w.
  - simpl. unfold ret. reflexivity.
  - simpl. unfold process_template_line, bind, here. simpl.
    destruct (_parse_template_line line) as [d | e]; simpl.
    + unfold ret. apply IH.
    + unfold raise. destruct e; try reflexivity; unfold emit; simpl; apply IH.
Qed.


(** X15. A line that raises anything but the two exceptions the loop
    catches ends the parse: the exception reaches the caller, the lines
    after it are not read, and the reports of the malformed lines before
    it have been printed. *)
Theorem parse_manifestin_uncaught :
  forall (template : string) (before after : list (line_ref * string))
         (n : line_ref) (line : string) (e : exn) (w : world Disk),
    let fs := view (disk w) (cwd w) in
    path_exists fs template = true ->
    text_lines fs template = Some (before ++ (n, line) :: after)%list ->
    Forall (fun l => parses_or_malformed _parse_template_line (snd l)) before ->
    _parse_template_line line = Raised e ->
    caught e = None ->
    parse_manifestin view _parse_template_line apply_directive template w
    = (Raised e, wrote w (reports _parse_template_line template before)).
Proof.
  intros template before after n line e w fs Hex Hlines Hbefore Hline Hcaught.
  unfold parse_manifestin, bind, here. simpl. fold fs. rewrite Hex, Hlines. simpl.
  rewrite read_template_app.
  rewrite (read_template_runs view _parse_template_line apply_directive
             template before Hbefore).
  simpl. unfold process_template_line, bind, here. simpl. rewrite Hline.
  unfold raise. destruct e; simpl in Hcaught; try discriminate; reflexivity.
Qed.


End ManifestErrors.

Lemma parse_manifestin_uncaught_witness :
  parse_manifestin (Fixture.view Unreadable.project) Unreadable.parse Fixture.toy_apply
    "MANIFEST.in" Fixture.start
  = (Raised (OSError "docs"),
     wrote Fixture.start [Printed "MANIFEST.in, line 1: unknown action 'frobnicate'"]).
Proof.
  apply (parse_manifestin_uncaught (Fixture.view Unreadable.project) Unreadable.parse
           Fixture.toy_apply "MANIFEST.in"
           [(LineAt 1, "frobnicate")] [(LineAt 3, "include a.txt")]
           (LineAt 2) "graft docs" (OSError "docs") Fixture.start
           eq_refl eq_refl ltac:(repeat constructor; discriminate) eq_refl eq_refl).
Defined.

(* ------------------------------------------------------------------ *)
(** ** Listing verbosity *)

Section HideListing.

Import Listing.

(** Under hide-listing, with the null device at hand, the body runs on
    the hidden console and the console is put back afterwards. *)
Lemma hide_listing_hidden_eq {A : Type} (d : Distribution) (body : bool -> L A)
      (s : console) :
  hide_listing d = Some true -> devnull_opens s = true ->
  distribution_hide_listing true d body s
  = let (r, s1) := body true (hidden s) in (r, unhidden s s1).
Proof.
  intros Hd Hnull. destruct s as [lv rl th so dn sc]. simpl in Hnull. subst dn.
  unfold distribution_hide_listing, bind, getEffectiveLevel, setLevel, try_finally,
    open_devnull, redirect_stdout, hidden, unhidden.
  rewrite Hd. simpl.
  destruct (body true _) as [r s1]. reflexivity.
Qed.

(** Without hide-listing the body runs on the console as it is. *)
Lemma hide_listing_plain_eq {A : Type} (d : Distribution) (body : bool -> L A)
      (s : console) :
  hide_listing d <> Some true ->
  distribution_hide_listing true d body s
  = let (r, s1) := body false s in (r, releveled s s1).
Proof.
  intros Hd.
  assert (Hv : match hide_listing d with Some v => v | None => false end = false).
  { destruct (hide_listing d) as [[|]|]; [congruence | reflexivity | reflexivity]. }
  unfold distribution_hide_listing, bind, getEffectiveLevel, setLevel, try_finally, ret.
  rewrite Hv. simpl.
  replace {| level := level s; root_level := root_level s; threshold := threshold s;
             stdout := stdout s; devnull_opens := devnull_opens s; screen := screen s |}
    with s by now destruct s.
  destruct (body false s) as [r s1]. reflexivity.
Qed.

(** Under hide-listing, when the null device cannot be opened. *)
Lemma hide_listing_no_devnull_eq {A : Type} (d : Distribution) (body : bool -> L A)
      (s : console) :
  hide_listing d = Some true -> devnull_opens s = false ->
  distribution_hide_listing true d body s
  = (Raised (OSError "/dev/null"), releveled s s).
Proof.
  intros Hd Hnull. destruct s as [lv rl th so dn sc]. simpl in Hnull. subst dn.
  unfold distribution_hide_listing, bind, getEffectiveLevel, setLevel, try_finally,
    open_devnull, releveled.
  rewrite Hd. reflexivity.
Qed.

Lemma hide_listing_cases (d : Distribution) (s : console) :
  (hide_listing d = Some true /\ devnull_opens s = true)
  \/ (hide_listing d = Some true /\ devnull_opens s = false)
  \/ hide_listing d <> Some true.
Proof.
  destruct (hide_listing d) as [[|]|]; destruct (devnull_opens s); auto;
    right; right; discriminate.
Qed.

(** X17. With [setuptools.logging] at hand, the logger's level after a
    [distribution_hide_listing] block is the level that was in effect
    before it, for every distribution and every body, however the block
    ends; a logger whose own level was NOTSET is thereby left with the
    level it had inherited. *)
Theorem hide_listing_restores_level :
  forall (A : Type) (d : Distribution) (body : bool -> L A) (s : console),
    level (snd (distribution_hide_listing true d body s)) = effective_level s.
Proof.
  intros A d body s.
  destruct (hide_listing_cases d s) as [[Hd Hn] | [[Hd Hn] | Hd]].
  - rewrite hide_listing_hidden_eq by assumption.
    now destruct (body true (hidden s)).
  - now rewrite hide_listing_no_devnull_eq.
  - rewrite hide_listing_plain_eq by assumption.
    now destruct (body false s).
Qed.

(** X18. With the classic [distutils.log], the threshold after the block
    is the threshold before it, for every distribution and every body. *)
Theorem hide_listing_restores_threshold :
  forall (A : Type) (d : Distribution) (body : bool -> L A) (s : console),
    threshold (snd (distribution_hide_listing false d body s)) = threshold s.
Proof.
  intros A d body s.
  unfold distribution_hide_listing, bind, get_threshold, set_threshold, try_finally, ret.
  destruct (match hide_listing d with Some v => v | None => false end); simpl;
    match goal with |- context [body ?b ?s'] => destruct (body b s') end;
    reflexivity.
Qed.

(** X19. Under hide-listing the body is given [True] and runs with the
    logger at WARNING and standard output on the null device; the block
    returns or raises as the body does, and afterwards standard output is
    what it was before the block, whatever the body set it to. *)
Theorem hide_listing_hides :
  forall (A : Type) (d : Distribution) (body : bool -> L A) (s : console),
    hide_listing d = Some true -> devnull_opens s = true ->
    distribution_hide_listing true d body s
    = (fst (body true (hidden s)), unhidden s (snd (body true (hidden s))))
    /\ stdout (snd (distribution_hide_listing true d body s)) = stdout s.
Proof.
  intros A d body s Hd Hn. rewrite hide_listing_hidden_eq by assumption.
  destruct (body true (hidden s)) as [r s1]. split; reflexivity.
Qed.

(** X20. Without hide-listing (no attribute, or a false one) the body is
    given [False] and runs on the console as it is; the block returns or
    raises as the body does and only sets the logger to the level that
    was in effect before. *)
Theorem hide_listing_not_requested :
  forall (A : Type) (d : Distribution) (body : bool -> L A) (s : console),
    hide_listing d = None \/ hide_listing d = Some false ->
    distribution_hide_listing true d body s
    = (fst (body false s), releveled s (snd (body false s))).
Proof.
  intros A d body s Hd. rewrite hide_listing_plain_eq.
  - now destruct (body false s).
  - destruct Hd as [-> | ->]; discriminate.
Qed.

(** On the hidden console only warnings get through. *)
Lemma say_all_hidden (rs : list remark) :
  forall s : console,
    level s = logging_WARNING -> stdout s = DevNull ->
    say_all rs s = (Returned tt, showing s (warnings_of rs)).
Proof.
  induction rs as [|r rs IH]; intros s Hl Ho.
  - simpl. unfold ret, showing. simpl. rewrite app_nil_r. now destruct s.
  - simpl. unfold bind.
    assert (Heff : effective_level s = logging_WARNING).
    { unfold effective_level. now rewrite Hl. }
    destruct r as [msg | msg | msg]; simpl.
    + unfold logger_log. rewrite Heff. simpl. now apply IH.
    + unfold logger_log. rewrite Heff. simpl. unfold show.
      rewrite IH by assumption. unfold showing. simpl. now rewrite <- app_assoc.
    + unfold print. rewrite Ho. now apply IH.
Qed.

(** X21. A block under hide-listing that logs at info and warning level
    and prints shows its warnings and nothing else. *)
Theorem hide_listing_quiet :
  forall (d : Distribution) (rs : list remark) (s : console),
    hide_listing d = Some true -> devnull_opens s = true ->
    distribution_hide_listing true d (fun _ => say_all rs) s
    = (Returned tt, releveled s (showing s (warnings_of rs))).
Proof.
  intros d rs s Hd Hn. rewrite hide_listing_hidden_eq by assumption.
  rewrite say_all_hidden by reflexivity. reflexivity.
Qed.

(** X22. Under hide-listing, when the null device cannot be opened, the
    body does not run: [OSError] is raised, nothing is shown, and the
    logger is set to the level that was in effect before. *)
Theorem hide_listing_without_devnull :
  forall (A : Type) (d : Distribution) (body : bool -> L A) (s : console),
    hide_listing d = Some true -> devnull_opens s = false ->
    distribution_hide_listing true d body s
    = (Raised (OSError "/dev/null"), releveled s s).
Proof.
  intros A d body s Hd Hn. now apply hide_listing_no_devnull_eq.
Qed.

(** X23. [install_scripts.run] reports the number of copied files even
    under hide-listing: the count is logged after the block, when the
    logger is back at the level in effect before, so it is shown exactly
    when that level lets INFO through. *)
Theorem install_scripts_run_reports :
  forall (d : Distribution) (inherited_run : L (list string)) (s s1 : console)
         (outfiles : list string),
    hide_listing d = Some true -> devnull_opens s = true ->
    0 < effective_level s ->
    inherited_run (hidden s) = (Returned outfiles, s1) ->
    install_scripts_run true d inherited_run s
    = (Returned tt,
       if Nat.leb (effective_level s) logging_INFO
       then showing (unhidden s s1) [Logged logging_INFO (copied outfiles)]
       else unhidden s s1).
Proof.
  intros d inherited s s1 outfiles Hd Hn Hpos Hrun.
  unfold install_scripts_run, bind.
  rewrite hide_listing_hidden_eq by assumption. rewrite Hrun.
  unfold distutils_log_info, logger_log.
  assert (Heff : effective_level (unhidden s s1) = effective_level s).
  { unfold effective_level at 1. simpl.
    destruct (Nat.eqb (effective_level s) 0) eqn:E; [|reflexivity].
    apply Nat.eqb_eq in E. lia. }
  rewrite Heff. destruct (Nat.leb (effective_level s) logging_INFO); reflexivity.
Qed.

(** X24. When the inherited [run] raises, [install_scripts.run] raises
    the same exception and logs no count; the logger and standard output
    are put back all the same. *)
Theorem install_scripts_run_failure :
  forall (d : Distribution) (inherited_run : L (list string)) (s s1 : console)
         (e : exn),
    (hide_listing d = Some true -> devnull_opens s = true ->
     inherited_run (hidden s) = (Raised e, s1) ->
     install_scripts_run true d inherited_run s = (Raised e, unhidden s s1))
    /\ (hide_listing d <> Some true ->
        inherited_run s = (Raised e, s1) ->
        install_scripts_run true d inherited_run s = (Raised e, releveled s s1)).
Proof.
  intros d inherited s s1 e. split.
  - intros Hd Hn Hrun. unfold install_scripts_run, bind.
    rewrite hide_listing_hidden_eq by assumption. now rewrite Hrun.
  - intros Hd Hrun. unfold install_scripts_run, bind.
    rewrite hide_listing_plain_eq by assumption. now rewrite Hrun.
Qed.

End HideListing.

Lemma hide_listing_hides_witness :
  Listing.distribution_hide_listing true Listing.hiding
    (fun h => Listing.bind (Listing.print "copying foo.py") (fun _ => Listing.ret h))
    Listing.fresh
  = (Returned true, Listing.fresh).
Proof.
  rewrite (proj1 (hide_listing_hides bool Listing.hiding
                    (fun h => Listing.bind (Listing.print "copying foo.py")
                                           (fun _ => Listing.ret h))
                    Listing.fresh eq_refl eq_refl)).
  reflexivity.
Defined.

Lemma hide_listing_not_requested_witness :
  Listing.distribution_hide_listing true Listing.plain
    (fun h => Listing.bind (Listing.print "copying foo.py") (fun _ => Listing.ret h))
    Listing.fresh
  = (Returned false, Listing.showing Listing.fresh [Listing.Line "copying foo.py"]).
Proof.
  rewrite (hide_listing_not_requested bool Listing.plain
             (fun h => Listing.bind (Listing.print "copying foo.py")
                                    (fun _ => Listing.ret h))
             Listing.fresh (or_introl eq_refl)).
  reflexivity.
Defined.

Lemma hide_listing_quiet_witness :
  Listing.distribution_hide_listing true Listing.hiding
    (fun _ => Listing.say_all [Listing.Info "copying foo.py";
                               Listing.Warning "no files found matching '*.txt'";
                               Listing.Print "running install_scripts"])
    Listing.fresh
  = (Returned tt,
     Listing.showing Listing.fresh
       [Listing.Logged 30 "no files found matching '*.txt'"]).
Proof.
  rewrite (hide_listing_quiet Listing.hiding
             [Listing.Info "copying foo.py";
              Listing.Warning "no files found matching '*.txt'";
              Listing.Print "running install_scripts"]
             Listing.fresh eq_refl eq_refl).
  reflexivity.
Defined.

Lemma hide_listing_without_devnull_witness :
  Listing.distribution_hide_listing true Listing.hiding
    (fun _ => Listing.print "copying foo.py")
    {| Listing.level := 20; Listing.root_level := 30; Listing.threshold := 2;
       Listing.stdout := Listing.Terminal; Listing.devnull_opens := false;
       Listing.screen := [] |}
  = (Raised (OSError "/dev/null"),
     {| Listing.level := 20; Listing.root_level := 30; Listing.threshold := 2;
        Listing.stdout := Listing.Terminal; Listing.devnull_opens := false;
        Listing.screen := [] |}).
Proof.
  rewrite (hide_listing_without_devnull unit Listing.hiding
             (fun _ => Listing.print "copying foo.py")
             {| Listing.level := 20; Listing.root_level := 30; Listing.threshold := 2;
                Listing.stdout := Listing.Terminal; Listing.devnull_opens := false;
                Listing.screen := [] |} eq_refl eq_refl).
  reflexivity.
Defined.

Lemma install_scripts_run_reports_witness :
  Listing.install_scripts_run true Listing.hiding
    (Listing.bind (Listing.logger_log 20 "copying s.py -> bin")
                  (fun _ => Listing.ret ["bin/s.py"; "bin/t.py"]))
    Listing.fresh
  = (Returned tt, Listing.showing Listing.fresh [Listing.Logged 20 "copied 2 files"]).
Proof.
  rewrite (install_scripts_run_reports Listing.hiding
             (Listing.bind (Listing.logger_log 20 "copying s.py -> bin")
                           (fun _ => Listing.ret ["bin/s.py"; "bin/t.py"]))
             Listing.fresh (Listing.hidden Listing.fresh) ["bin/s.py"; "bin/t.py"]
             eq_refl eq_refl ltac:(unfold Listing.effective_level; simpl; lia) eq_refl).
  reflexivity.
Defined.

Lemma install_scripts_run_failure_witness :
  Listing.install_scripts_run true Listing.hiding
    (Listing.raise (DistutilsFileError "can't copy 'bin/s.py'"))
    Listing.fresh
  = (Raised (DistutilsFileError "can't copy 'bin/s.py'"), Listing.fresh).
Proof.
  rewrite (proj1 (install_scripts_run_failure Listing.hiding
                    (Listing.raise (DistutilsFileError "can't copy 'bin/s.py'"))
                    Listing.fresh (Listing.hidden Listing.fresh)
                    (DistutilsFileError "can't copy 'bin/s.py'"))
                 eq_refl eq_refl eq_refl).
  reflexivity.
Defined.


Lemma push_dir_body_starts_witness :
  exists cm,
    push_dir__enter__ (Fixture.view Fixture.with_manifest) Fixture.os_makedirs
      (push_dir__init__ (Some "/proj/sub") true) Fixture.start
    = (Returned cm, moved Fixture.start "/proj/sub")
    /\ old_cwd cm = Some "/proj".
Proof.
  apply (proj1 (push_dir_body_starts (Fixture.view Fixture.with_manifest)
                  Fixture.os_makedirs "/"%char "proj/sub" Fixture.start)
               tt "/proj/sub" eq_refl eq_refl).
Defined.
